(** * pynws: geocoding lookup, weather client and heat index

    A shallow embedding of [src/geocoding.py] and [src/weather.py].

    Python values are modelled as they occur in the program: decoded JSON as
    an inductive type, [int] as [Z], [float] as IEEE-754 binary64 (Rocq's
    primitive floats), exceptions as an error type threaded through a small
    result monad, and the network, the wall clock and object identity through
    an explicit world state. *)

From Stdlib Require Import ZArith QArith List String Ascii Bool Lia DecimalString.
From Stdlib Require Import Floats.PrimFloat Floats.SpecFloat Floats.FloatOps.
Import ListNotations.
Close Scope Q_scope.
Local Open Scope string_scope.

Set Warnings "-inexact-float,-register-all".

(** ** Python values and exceptions *)

(** What [json.loads] produces: [None], [bool], [int], [float], [str],
    [list] and [dict] (insertion ordered, string keys). *)
Inductive json : Type :=
| JNull
| JBool (b : bool)
| JInt (z : Z)
| JFloat (f : float)
| JString (s : string)
| JArray (l : list json)
| JObject (o : list (string * json)).

(** A [requests.Response], reduced to what the program reads. *)
Record Response : Type := mkResponse {
  status_code : Z;
  content : string
}.

(** The exceptions the program can raise or let through. *)
Inductive PyError : Type :=
| KeyError (key : json)
| IndexError
| TypeError
| AttributeError
| ValueError (arg : json)
| OverflowError
| ZeroDivisionError
| UnboundLocalError (name : string)
| AssertionError (msg : string)
| JSONDecodeError
| HTTPError (r : Response)
| RequestException (kind : string).

Inductive result (A : Type) : Type :=
| Ok (a : A)
| Raise (e : PyError).
Arguments Ok {A} a.
Arguments Raise {A} e.

Definition bind {A B : Type} (m : result A) (k : A -> result B) : result B :=
  match m with
  | Ok a => k a
  | Raise e => Raise e
  end.

Declare Scope py_scope.
Delimit Scope py_scope with py.
Notation "'do' x <- m ; k" := (bind m (fun x => k))
  (at level 10, x name, m at level 100, k at level 200) : py_scope.

(** ** Python numbers *)

(** The two numeric types the arithmetic of the program meets. *)
Inductive pynum : Type :=
| PInt (z : Z)
| PFloat (f : float).

(** An exact integer as an (unnormalised) binary float [m * 2^0]. *)
Definition Z2SF (z : Z) : spec_float :=
  match z with
  | Z0 => S754_zero false
  | Zpos p => S754_finite false p 0
  | Zneg p => S754_finite true p 0
  end.

(** [float(z)] for an [int]: rounded to nearest, ties to even;
    [OverflowError] when the rounded value does not fit a double. *)
Definition float_of_int (z : Z) : result float :=
  match binary_normalize prec emax z 0 false with
  | S754_infinity _ => Raise OverflowError
  | sf => Ok (SF2Prim sf)
  end.

(** [a / b] on two [int]s: the correctly rounded quotient. *)
Definition int_true_div (a b : Z) : result float :=
  if (b =? 0)%Z then Raise ZeroDivisionError
  else match SFdiv prec emax (Z2SF a) (Z2SF b) with
       | S754_infinity _ => Raise OverflowError
       | sf => Ok (SF2Prim sf)
       end.

Definition to_float (a : pynum) : result float :=
  match a with
  | PInt z => float_of_int z
  | PFloat f => Ok f
  end.

Definition num_add (a b : pynum) : result pynum :=
  match a, b with
  | PInt x, PInt y => Ok (PInt (x + y))
  | _, _ => (do fa <- to_float a; do fb <- to_float b; Ok (PFloat (fa + fb)))%py
  end.

Definition num_sub (a b : pynum) : result pynum :=
  match a, b with
  | PInt x, PInt y => Ok (PInt (x - y))
  | _, _ => (do fa <- to_float a; do fb <- to_float b; Ok (PFloat (fa - fb)))%py
  end.

Definition num_mul (a b : pynum) : result pynum :=
  match a, b with
  | PInt x, PInt y => Ok (PInt (x * y))
  | _, _ => (do fa <- to_float a; do fb <- to_float b; Ok (PFloat (fa * fb)))%py
  end.

Definition num_truediv (a b : pynum) : result pynum :=
  match a, b with
  | PInt x, PInt y => (do q <- int_true_div x y; Ok (PFloat q))%py
  | _, _ =>
      (do fa <- to_float a; do fb <- to_float b;
       if (fb =? 0)%float then Raise ZeroDivisionError
       else Ok (PFloat (fa / fb)))%py
  end.

Definition num_abs (a : pynum) : pynum :=
  match a with
  | PInt z => PInt (Z.abs z)
  | PFloat f => PFloat (abs f)
  end.

(** Python compares a [float] with an [int] by value, without rounding the
    [int]; [None] is the unordered case (NaN). *)
Definition float_compare_int (f : float) (z : Z) : option comparison :=
  match Prim2SF f with
  | S754_nan => None
  | S754_infinity s => Some (if s then Lt else Gt)
  | S754_zero _ => Some (0 ?= z)%Z
  | S754_finite s m e =>
      let v := if s then Zneg m else Zpos m in
      Some (if (0 <=? e)%Z then (v * 2 ^ e ?= z)%Z
            else (v ?= z * 2 ^ (- e))%Z)
  end.

Definition num_compare (a b : pynum) : option comparison :=
  match a, b with
  | PInt x, PInt y => Some (x ?= y)%Z
  | PFloat f, PInt z => float_compare_int f z
  | PInt z, PFloat f => option_map CompOpp (float_compare_int f z)
  | PFloat f, PFloat g =>
      match (f ?= g)%float with
      | FEq => Some Eq
      | FLt => Some Lt
      | FGt => Some Gt
      | FNotComparable => None
      end
  end.

Definition num_le (a b : pynum) : bool :=
  match num_compare a b with Some Lt | Some Eq => true | _ => false end.
Definition num_lt (a b : pynum) : bool :=
  match num_compare a b with Some Lt => true | _ => false end.
Definition num_ge (a b : pynum) : bool :=
  match num_compare a b with Some Gt | Some Eq => true | _ => false end.
Definition num_gt (a b : pynum) : bool :=
  match num_compare a b with Some Gt => true | _ => false end.

(** [math.sqrt]: the argument is converted to [float]; a negative argument
    is a domain error. *)
Definition math_sqrt (a : pynum) : result pynum :=
  (do f <- to_float a;
   if (f <? 0)%float then Raise (ValueError (JString "math domain error"))
   else Ok (PFloat (sqrt f)))%py.

(** An operand of an arithmetic operator or of [round]: numbers ([bool] is
    an [int]); any other value makes the operators and built-ins used in
    this program raise [TypeError]. *)
Definition as_num (v : json) : result pynum :=
  match v with
  | JInt z => Ok (PInt z)
  | JFloat f => Ok (PFloat f)
  | JBool b => Ok (PInt (if b then 1 else 0))
  | _ => Raise TypeError
  end.

(** *** Decimal rounding and formatting *)

(** [n / d] rounded to the nearest integer, ties to even ([0 <= n], [0 < d]). *)
Definition round_half_even_div (n d : Z) : Z :=
  let q := (n / d)%Z in
  match (2 * (n mod d) ?= d)%Z with
  | Lt => q
  | Gt => (q + 1)%Z
  | Eq => if Z.even q then q else (q + 1)%Z
  end.

(** The exact value [m * 2^e] in ten-thousandths, rounded half to even. *)
Definition scaled4 (m : positive) (e : Z) : Z :=
  if (0 <=? e)%Z then (Zpos m * 2 ^ e * 10 ^ 4)%Z
  else round_half_even_div (Zpos m * 10 ^ 4) (2 ^ (- e)).

(** [round(x, 4)] on a [float]: the exact binary value is rounded to four
    decimals (ties to even) and the decimal result is read back as the nearest
    double; NaN and the infinities round to themselves, the sign is kept. *)
Definition float_round4 (x : float) : float :=
  match Prim2SF x with
  | S754_finite s m e =>
      let n := Z2SF (scaled4 m e) in
      SF2Prim (SFdiv prec emax (if s then SFopp n else n) (Z2SF (10 ^ 4)))
  | _ => x
  end.

(** [round(v, 4)]: an [int] is returned as it is. *)
Definition num_round4 (a : pynum) : pynum :=
  match a with
  | PInt z => PInt z
  | PFloat f => PFloat (float_round4 f)
  end.

Definition py_round4 (v : json) : result pynum :=
  (do a <- as_num v; Ok (num_round4 a))%py.

Definition decimal (z : Z) : string :=
  NilZero.string_of_uint (N.to_uint (Z.to_N z)).

(** ["{:.4f}".format(x)] on a [float]. *)
Definition float_format_4f (x : float) : string :=
  match Prim2SF x with
  | S754_nan => "nan"
  | S754_infinity s => if s then "-inf" else "inf"
  | S754_zero s => (if s then "-" else "") ++ "0.0000"
  | S754_finite s m e =>
      let n := scaled4 m e in
      (if s then "-" else "") ++ decimal (n / 10 ^ 4) ++ "."
        ++ substring 1 4 (decimal (10 ^ 4 + n mod 10 ^ 4))
  end.

(** On an [int] the format converts to [float] first. *)
Definition format_4f (a : pynum) : result string :=
  (do f <- to_float a; Ok (float_format_4f f))%py.

(** *** Expressions

    Python evaluates the left operand, then the right one, then applies the
    operator; the first exception wins. *)
Definition binop (op : pynum -> pynum -> result pynum)
    (x y : result pynum) : result pynum :=
  (do a <- x; do b <- y; op a b)%py.

Definition cmpop (op : pynum -> pynum -> bool)
    (x y : result pynum) : result bool :=
  (do a <- x; do b <- y; Ok (op a b))%py.

(** [x and y] on conditions: [y] is evaluated only when [x] holds. *)
Definition and_then (x y : result bool) : result bool :=
  (do a <- x; if a then y else Ok false)%py.

Definition F (f : float) : result pynum := Ok (PFloat f).
Definition I (z : Z) : result pynum := Ok (PInt z).

Notation "x + y" := (binop num_add x y) : py_scope.
Notation "x - y" := (binop num_sub x y) : py_scope.
Notation "x * y" := (binop num_mul x y) : py_scope.
Notation "x / y" := (binop num_truediv x y) : py_scope.
Notation "x <= y" := (cmpop num_le x y) : py_scope.
Notation "x < y" := (cmpop num_lt x y) : py_scope.
Notation "x >= y" := (cmpop num_ge x y) : py_scope.
Notation "x > y" := (cmpop num_gt x y) : py_scope.
Notation "x 'and' y" := (and_then x y)
  (at level 75, right associativity) : py_scope.
Notation "'abs' ( x )" := (do a <- x; Ok (num_abs a))%py
  (at level 0) : py_scope.
Notation "'sqrt' ( x )" := (do a <- x; math_sqrt a)%py
  (at level 0) : py_scope.


(** ** Operations on decoded JSON *)

Fixpoint assoc (k : string) (o : list (string * json)) : option json :=
  match o with
  | [] => None
  | (k', v) :: o' => if String.eqb k k' then Some v else assoc k o'
  end.

(** Truth value of an object in a condition. *)
Definition truthy (v : json) : bool :=
  match v with
  | JNull => false
  | JBool b => b
  | JInt z => negb (z =? 0)%Z
  | JFloat f => negb (f =? 0)%float
  | JString s => negb (String.eqb s "")
  | JArray l => match l with [] => false | _ => true end
  | JObject o => match o with [] => false | _ => true end
  end.

(** [v[key]] with a [str] key. *)
Definition getitem (v : json) (key : string) : result json :=
  match v with
  | JObject o =>
      match assoc key o with
      | Some x => Ok x
      | None => Raise (KeyError (JString key))
      end
  | _ => Raise TypeError
  end.

(** [v[i]] with an [int] index; a negative index counts from the end. *)
Definition getitem_int (v : json) (i : Z) : result json :=
  match v with
  | JArray l =>
      let n := Z.of_nat (List.length l) in
      let j := if (i <? 0)%Z then (i + n)%Z else i in
      if ((0 <=? j) && (j <? n))%Z%bool then
        match nth_error l (Z.to_nat j) with
        | Some x => Ok x
        | None => Raise IndexError
        end
      else Raise IndexError
  | JString s =>
      let n := Z.of_nat (String.length s) in
      let j := if (i <? 0)%Z then (i + n)%Z else i in
      if ((0 <=? j) && (j <? n))%Z%bool then
        match String.get (Z.to_nat j) s with
        | Some c => Ok (JString (String c EmptyString))
        | None => Raise IndexError
        end
      else Raise IndexError
  | JObject _ => Raise (KeyError (JInt i))
  | _ => Raise TypeError
  end.

(** [v.get(key)]: only a [dict] has the method. *)
Definition dict_get (v : json) (key : string) : result json :=
  match v with
  | JObject o =>
      match assoc key o with
      | Some x => Ok x
      | None => Ok JNull
      end
  | _ => Raise AttributeError
  end.

(** [len(v)] *)
Definition len (v : json) : result Z :=
  match v with
  | JString s => Ok (Z.of_nat (String.length s))
  | JArray l => Ok (Z.of_nat (List.length l))
  | JObject o => Ok (Z.of_nat (List.length o))
  | _ => Raise TypeError
  end.

Fixpoint chars (s : string) : list json :=
  match s with
  | EmptyString => []
  | String c s' => JString (String c EmptyString) :: chars s'
  end.

(** The items an iteration over [v] yields. *)
Definition iter (v : json) : result (list json) :=
  match v with
  | JArray l => Ok l
  | JObject o => Ok (List.map (fun kv => JString (fst kv)) o)
  | JString s => Ok (chars s)
  | _ => Raise TypeError
  end.

(** ** The world: network, clock, object identities *)

(** One call of [requests.get]. *)
Record Request : Type := mkRequest {
  url : json;
  params : list (string * string);
  headers : list (string * string)
}.

(** What a call of [requests.get] does: it returns a response or raises. *)
Inductive GetResult : Type :=
| Responded (r : Response)
| Failed (e : PyError).

Record datetime : Type := mkDatetime {
  micros : Z;
  utcoffset : option Z
}.

Definition timedelta : Type := Z.

(** What the program does not define itself: the remote services (their
    answer may depend on the calls made so far), the successive readings of
    the wall clock, and the library functions [json.loads],
    [datetime.fromisoformat] and [repr] on [bytes]. *)
Record Env : Type := mkEnv {
  network : list Request -> Request -> GetResult;
  clock : nat -> Z;
  json_loads : string -> result json;
  fromisoformat : string -> result datetime;
  bytes_repr : string -> string
}.

Record World : Type := mkWorld {
  calls : list Request;
  ticks : nat;
  next_id : nat
}.

Definition M (A : Type) : Type := World -> result A * World.

Definition ret {A : Type} (a : A) : M A := fun w => (Ok a, w).

Definition raise {A : Type} (e : PyError) : M A := fun w => (Raise e, w).

Definition lift {A : Type} (r : result A) : M A := fun w => (r, w).

Definition bindM {A B : Type} (m : M A) (k : A -> M B) : M B :=
  fun w =>
    match m w with
    | (Ok a, w') => k a w'
    | (Raise e, w') => (Raise e, w')
    end.

Declare Scope io_scope.
Delimit Scope io_scope with io.
Notation "'do' x <- m ; k" := (bindM m (fun x => k))
  (at level 10, x name, m at level 100, k at level 200) : io_scope.

(** [requests.get]: the call is recorded, whatever its outcome. *)
Definition requests_get (env : Env) (q : Request) : M Response :=
  fun w =>
    let w' := mkWorld (calls w ++ [q])%list (ticks w) (next_id w) in
    match network env (calls w) q with
    | Responded r => (Ok r, w')
    | Failed e => (Raise e, w')
    end.

(** [Response.raise_for_status]: [HTTPError] on a 4xx or 5xx status. *)
Definition raise_for_status (r : Response) : result unit :=
  if ((400 <=? status_code r) && (status_code r <? 600))%Z%bool
  then Raise (HTTPError r)
  else Ok tt.

(** How a block [try: r = requests.get(...); r.raise_for_status()] ends. *)
Inductive attempt : Type :=
| Completed (r : Response)
| Excepted (r : option Response) (e : PyError).

(** In [Excepted r e], [r] is the local variable [r]: it is unbound when
    [requests.get] itself raised. *)
Definition try_get (env : Env) (q : Request) : M attempt :=
  fun w =>
    match requests_get env q w with
    | (Raise e, w') => (Ok (Excepted None e), w')
    | (Ok r, w') =>
        match raise_for_status r with
        | Raise e => (Ok (Excepted (Some r) e), w')
        | Ok _ => (Ok (Completed r), w')
        end
    end.

(** Reading a local variable. *)
Definition local {A : Type} (name : string) (v : option A) : result A :=
  match v with
  | Some a => Ok a
  | None => Raise (UnboundLocalError name)
  end.

(** [datetime.datetime.now()]: a naive datetime. *)
Definition datetime_now (env : Env) : M datetime :=
  fun w =>
    (Ok (mkDatetime (clock env (ticks w)) None),
     mkWorld (calls w) (S (ticks w)) (next_id w)).

(** [a - b] on datetimes: naive and aware values do not mix. *)
Definition datetime_sub (a b : datetime) : result timedelta :=
  match utcoffset a, utcoffset b with
  | None, None => Ok (micros a - micros b)%Z
  | Some oa, Some ob => Ok ((micros a - oa) - (micros b - ob))%Z
  | _, _ => Raise TypeError
  end.

(** The identity of a newly created object. *)
Definition new_id : M nat :=
  fun w => (Ok (next_id w), mkWorld (calls w) (ticks w) (S (next_id w))).

(** The values [max_age] takes: the annotated [int], or a [timedelta]. *)
Inductive max_age_value : Type :=
| MaxAgeInt (n : Z)
| MaxAgeTimedelta (d : timedelta).

(** [d > max_age] for a [timedelta] [d]: a [timedelta] is ordered against
    another [timedelta] only. *)
Definition timedelta_gt (d : timedelta) (a : max_age_value) : result bool :=
  match a with
  | MaxAgeTimedelta m => Ok (m <? d)%Z
  | MaxAgeInt _ => Raise TypeError
  end.

Fixpoint mapM {A B : Type} (f : A -> result B) (l : list A)
    : result (list B) :=
  match l with
  | [] => Ok []
  | a :: l' => (do b <- f a; do bs <- mapM f l'; Ok (b :: bs))%py
  end.

(** [l[i]] on a list of objects; a negative index counts from the end. *)
Definition list_getitem {A : Type} (l : list A) (i : Z) : result A :=
  let n := Z.of_nat (List.length l) in
  let j := if (i <? 0)%Z then (i + n)%Z else i in
  if ((0 <=? j) && (j <? n))%Z%bool then
    match nth_error l (Z.to_nat j) with
    | Some x => Ok x
    | None => Raise IndexError
    end
  else Raise IndexError.

(** [d.strftime(fmt)]: the characters before the first [%] are copied as
    they are; [render] is what the library makes of the rest, from the first
    directive on. *)
Fixpoint strftime (render : datetime -> string -> string) (d : datetime)
    (fmt : string) : string :=
  match fmt with
  | EmptyString => EmptyString
  | String c rest =>
      if Ascii.eqb c "%" then render d fmt
      else String c (strftime render d rest)
  end.

(** ** geocoding.py *)

Record Coordinates : Type := mkCoordinates {
  lat : pynum;
  long : pynum
}.

Definition GEOCODER_FORMAT_URL : string :=
  "https://geocoding.geo.census.gov/geocoder/locations/address".

Definition get_coords_from_address (env : Env)
    (address city state zip : string) : M Coordinates :=
  (* set up the query params *)
  let params :=
    [("format", "json"); ("benchmark", "2020"); ("street", address)] in
  let params :=
    fold_left
      (fun params kv =>
         if negb (String.length (snd kv) =? 0)%nat then (params ++ [kv])%list
         else params)
      [("city", city); ("state", state); ("zip", zip)] params in
  (* do the actual http request and raise error if necessary *)
  (do a <- try_get env (mkRequest (JString GEOCODER_FORMAT_URL) params []);
   match a with
   | Excepted r e =>
       (* decode json and raise error if necessary *)
       do r <- lift (local "r" r);
       do response <- lift (json_loads env (content r));
       do errors <- lift (dict_get response "errors");
       if truthy errors then
         do v <- lift (getitem response "errors");
         raise (ValueError v)
       else raise e
   | Completed r =>
       (* rip the coordinates out of the json *)
       do response <- lift (json_loads env (content r));
       do res <- lift (dict_get response "result");
       if negb (truthy res) then
         raise (ValueError (JString
           ("Census geocoder returned unexpected JSON: "
              ++ bytes_repr env (content r))))
       else
         do res <- lift (getitem response "result");
         do found <- lift (dict_get res "addressMatches");
         do n <- lift (len found);
         if (n =? 0)%Z then
           raise (ValueError (JString
             ("Invalid address: " ++ address ++ " " ++ city ++ " " ++ state
                ++ " " ++ zip)))
         else
           do res <- lift (getitem response "result");
           do found <- lift (getitem res "addressMatches");
           do first <- lift (getitem_int found 0);
           do raw_coords <- lift (getitem first "coordinates");
           do y <- lift (getitem raw_coords "y");
           do lat <- lift (py_round4 y);
           do x <- lift (getitem raw_coords "x");
           do long <- lift (py_round4 x);
           ret (mkCoordinates lat long)
   end)%io.

(** ** weather.py *)

(** ["https://api.weather.gov/points/{0:.4f},{1:.4f}".format(lat, long)] *)
Definition POINTS_API_URL (lat long : pynum) : result string :=
  (do a <- format_4f lat;
   do b <- format_4f long;
   Ok ("https://api.weather.gov/points/" ++ a ++ "," ++ b))%py.

Module LocationData.

Record t : Type := mk {
  x : json;
  y : json;
  cwa : json;
  weekly_forecast_url : json;
  hourly_forecast_url : json;
  forecast_grid_data_url : json;
  timezone : json;
  max_age : max_age_value;
  created : datetime
}.

(** [LocationData.__init__] *)
Definition __init__ (env : Env) (points_json : json) (max_age : max_age_value)
    : M t :=
  (do x <- lift (do p <- getitem points_json "properties";
                 getitem p "gridX")%py;
   do y <- lift (do p <- getitem points_json "properties";
                 getitem p "gridY")%py;
   do cwa <- lift (do p <- getitem points_json "properties";
                   getitem p "cwa")%py;
   do weekly <- lift (do p <- getitem points_json "properties";
                      getitem p "forecast")%py;
   do hourly <- lift (do p <- getitem points_json "properties";
                      getitem p "forecastHourly")%py;
   do grid <- lift (do p <- getitem points_json "properties";
                    getitem p "forecastGridData")%py;
   do timezone <- lift (do p <- getitem points_json "properties";
                        getitem p "timeZone")%py;
   do created <- datetime_now env;
   ret (mk x y cwa weekly hourly grid timezone max_age created))%io.

(** [LocationData.is_expired] *)
Definition is_expired (env : Env) (self : t) : M bool :=
  (do now <- datetime_now env;
   do elapsed <- lift (datetime_sub now (created self));
   lift (timedelta_gt elapsed (max_age self)))%io.

End LocationData.

Module Forecast.

(** The attributes are stored as the service sent them. *)
Record t : Type := mk {
  name : json;
  start_time : datetime;
  end_time : datetime;
  is_daytime : json;
  temperature : json;
  temperature_unit : json;
  precipitation_prob : json;
  relative_humidity : json;
  dew_point : json;
  dew_point_unit : json;
  wind_speed : json;
  wind_speed_direction : json;
  short_forecast : json;
  detailed_forecast : json
}.

(** [datetime.datetime.fromisoformat(v)]: the argument must be a [str]. *)
Definition parse_iso (env : Env) (v : json) : result datetime :=
  match v with
  | JString s => fromisoformat env s
  | _ => Raise TypeError
  end.

(** [Forecast.__init__] *)
Definition __init__ (env : Env) (forecast_json : json) : result t :=
  (do name <- getitem forecast_json "name";
   do st <- getitem forecast_json "startTime";
   do start_time <- parse_iso env st;
   do et <- getitem forecast_json "endTime";
   do end_time <- parse_iso env et;
   do is_daytime <- getitem forecast_json "isDaytime";
   do temperature <- getitem forecast_json "temperature";
   do temperature_unit <- getitem forecast_json "temperatureUnit";
   do pp <- getitem forecast_json "probabilityOfPrecipitation";
   do precipitation_prob <- getitem pp "value";
   do hum <- getitem forecast_json "relativeHumidity";
   do relative_humidity <- getitem hum "value";
   do dp <- getitem forecast_json "dewpoint";
   do dew_point <- getitem dp "value";
   do dp <- getitem forecast_json "dewpoint";
   do dew_point_unit <- getitem dp "unitCode";
   do wind_speed <- getitem forecast_json "windSpeed";
   do wind_speed_direction <- getitem forecast_json "windDirection";
   do short_forecast <- getitem forecast_json "shortForecast";
   do detailed_forecast <- getitem forecast_json "detailedForecast";
   Ok (mk name start_time end_time is_daytime temperature temperature_unit
          precipitation_prob relative_humidity dew_point dew_point_unit
          wind_speed wind_speed_direction short_forecast
          detailed_forecast))%py.

(** [Forecast.heat_index] *)
Definition heat_index (self : t) : result pynum :=
  (* for less verbosity *)
  let t := as_num (temperature self) in
  let rh := as_num (relative_humidity self) in
  (* simple formula that works for heat indices below 80 deg F *)
  (do hi <- F 0.5 * (t + F 61.0 + ((t - F 68.0) * F 1.2) + (rh * F 0.094));
   (* more accurate formula above 80 deg F *)
   do c <- Ok hi >= I 80;
   if c : bool then
     do hi <- F (-42.379) + F 2.04901523 * t + F 10.14333127 * rh
              - F 0.22475541 * t * rh - F 0.00683783 * t * t
              - F 0.05481717 * rh * rh + F 0.00122874 * t * t * rh
              + F 0.00085282 * t * rh * rh
              - F 0.00000199 * t * t * rh * rh;
     (* adjustments for certain conditions *)
     do c1 <- I 80 <= t and t <= I 112 and rh < I 13;
     if c1 : bool then
       Ok hi - ((I 13 - rh) / I 4) * sqrt((I 17 - abs(t - I 95)) / I 17)
     else
       do c2 <- rh > I 85 and I 80 <= t and t <= I 87;
       if c2 : bool then
         Ok hi + ((rh - I 85) / I 10) * ((I 87 - t) / I 5)
       else Ok hi
   else Ok hi)%py.

End Forecast.

Module WeeklyForecast.

(** [oid] is the identity of the object ([id(self)]), which tells a
    cached instance from a newly built one. *)
Record t : Type := mk {
  oid : nat;
  forecasts : list Forecast.t;
  max_age : max_age_value;
  created : datetime
}.

(** [WeeklyForecast.__init__] *)
Definition __init__ (env : Env) (forecast_json : json)
    (max_age : max_age_value) : M t :=
  (do oid <- new_id;
   do forecasts <- lift (do p <- getitem forecast_json "properties";
                         do periods <- getitem p "periods";
                         do items <- iter periods;
                         mapM (Forecast.__init__ env) items)%py;
   do created <- datetime_now env;
   ret (mk oid forecasts max_age created))%io.

(** [WeeklyForecast.is_expired] *)
Definition is_expired (env : Env) (self : t) : M bool :=
  (do now <- datetime_now env;
   do elapsed <- lift (datetime_sub now (created self));
   lift (timedelta_gt elapsed (max_age self)))%io.

(** [WeeklyForecast.today] *)
Definition today (self : t) : result Forecast.t :=
  match nth_error (forecasts self) 0 with
  | Some f => Ok f
  | None => Raise IndexError
  end.

(** [WeeklyForecast.__iter__]: the forecasts the iterator yields, in
    order. *)
Definition __iter__ (self : t) : list Forecast.t := forecasts self.

(** [WeeklyForecast.__str__] *)
Definition __str__ (render : datetime -> string -> string) (self : t)
    : result string :=
  (do first <- list_getitem (forecasts self) 0;
   let a := strftime render (Forecast.start_time first) "dd/mm/yy" in
   do last <- list_getitem (forecasts self) (-1);
   let b := strftime render (Forecast.end_time last) "dd/mm/yy" in
   Ok ("WeeklyForecast(" ++ a ++ " - " ++ b ++ ")"))%py.

End WeeklyForecast.

Module NWSClient.

Record t : Type := mk {
  user_agent : string
}.

(** [NWSClient.__init__], assertions enabled as they are by default;
    [None] is a missing identifying string. *)
Definition __init__ (user_agent : option string) : result t :=
  match user_agent with
  | Some s =>
      if negb (String.eqb s "") then Ok (mk s)
      else Raise (AssertionError "The NWS API requires a User-Agent string!")
  | None =>
      Raise (AssertionError "The NWS API requires a User-Agent string!")
  end.

(** [NWSClient.get_location_data] *)
Definition get_location_data (env : Env) (self : t) (coords : Coordinates)
    : M LocationData.t :=
  (do url_string <- lift (POINTS_API_URL (lat coords) (long coords));
   do a <- try_get env
             (mkRequest (JString url_string) []
                [("User-Agent", user_agent self)]);
   match a with
   | Excepted r e =>
       (* decode json and raise error if necessary *)
       do r <- lift (local "r" r);
       do response <- lift (json_loads env (content r));
       do errors <- lift (dict_get response "errors");
       if truthy errors then
         do v <- lift (getitem response "errors");
         raise (ValueError v)
       else raise e
   | Completed r =>
       (* rip the coordinates out of the json *)
       do response <- lift (json_loads env (content r));
       LocationData.__init__ env response (MaxAgeInt 0)
   end)%io.

(** [NWSClient.get_weekly_forecast] *)
Definition get_weekly_forecast (env : Env) (self : t) (coords : Coordinates)
    (cached_result : option WeeklyForecast.t) : M WeeklyForecast.t :=
  let fetch : M WeeklyForecast.t :=
    (do loc_data <- get_location_data env self coords;
     let weekly_url := LocationData.weekly_forecast_url loc_data in
     do a <- try_get env
               (mkRequest weekly_url [] [("User-Agent", user_agent self)]);
     match a with
     | Excepted r e =>
         (* decode json and raise error if necessary *)
         do r <- lift (local "r" r);
         do response <- lift (json_loads env (content r));
         do errors <- lift (dict_get response "errors");
         if truthy errors then
           do v <- lift (getitem response "errors");
           raise (ValueError v)
         else raise e
     | Completed r =>
         (* rip the coordinates out of the json *)
         do response <- lift (json_loads env (content r));
         WeeklyForecast.__init__ env response (MaxAgeInt 0)
     end)%io in
  match cached_result with
  | Some cached =>
      (do expired <- WeeklyForecast.is_expired env cached;
       if negb expired then ret cached else fetch)%io
  | None => fetch
  end.

End NWSClient.


(** ** The heat-index formulas, on doubles

    The formulas of the published equation, each operation rounded as the
    double arithmetic of the program rounds it, operands taken left to
    right. *)

Definition base_estimate (t rh : float) : float :=
  (0.5 * (t + 61.0 + ((t - 68.0) * 1.2) + (rh * 0.094)))%float.

Definition rothfusz (t rh : float) : float :=
  (-42.379 + 2.04901523 * t + 10.14333127 * rh - 0.22475541 * t * rh
   - 0.00683783 * t * t - 0.05481717 * rh * rh + 0.00122874 * t * t * rh
   + 0.00085282 * t * rh * rh - 0.00000199 * t * t * rh * rh)%float.

(** [((13 - RH)/4) * sqrt((17 - |T - 95|)/17)], on integer [T] and [RH]. *)
Definition low_humidity_adjustment (T RH : Z) : result float :=
  (do a <- int_true_div (13 - RH) 4;
   do b <- int_true_div (17 - Z.abs (T - 95)) 17;
   Ok (a * sqrt b)%float)%py.

(** [((RH - 85)/10) * ((87 - T)/5)], on integer [T] and [RH]. *)
Definition high_humidity_adjustment (T RH : Z) : result float :=
  (do a <- int_true_div (RH - 85) 10;
   do b <- int_true_div (87 - T) 5;
   Ok (a * b)%float)%py.

(** The base estimate in exact rational arithmetic. *)
Definition base_estimate_exact (t rh : Q) : Q :=
  ((1 # 2) * (t + 61 + ((t - 68) * (12 # 10)) + (rh * (94 # 1000))))%Q.

(** Checks run over finite ranges of integer arguments. *)

Definition range (lo : Z) (n : nat) : list Z :=
  List.map (fun k => (lo + Z.of_nat k)%Z) (seq 0 n).

Definition sqrt_argument_ok (T : Z) : bool :=
  match int_true_div (17 - Z.abs (T - 95)) 17 with
  | Ok b => negb (b <? 0)%float
  | Raise _ => false
  end.

Definition is_ok {A : Type} (r : result A) : bool :=
  match r with Ok _ => true | Raise _ => false end.

(** ** Concrete data for the examples *)

Definition sample_forecast (t rh : json) : Forecast.t :=
  Forecast.mk (JString "Today") (mkDatetime 0 None) (mkDatetime 0 None)
    (JBool true) t (JString "F") JNull rh JNull (JString "wmoUnit:degC")
    (JString "10 mph") (JString "NW") (JString "Sunny") (JString "Sunny.").

Definition table_loads (table : list (string * json)) (s : string)
    : result json :=
  match assoc s table with
  | Some v => Ok v
  | None => Raise JSONDecodeError
  end.

(** An environment whose services answer by the URL asked for, whose clock
    advances by one second per reading, and whose [json.loads] is a table. *)
Definition sample_env (answer : Request -> GetResult)
    (table : list (string * json)) : Env :=
  mkEnv (fun _ q => answer q)
        (fun n => (Z.of_nat n * 1000000)%Z)
        (table_loads table)
        (fun _ => Ok (mkDatetime 0 (Some 0%Z)))
        (fun s => "b'" ++ s ++ "'").

Definition world0 : World := mkWorld [] 0 0.

Definition white_house_json : json :=
  JObject [("result", JObject [("addressMatches", JArray [
    JObject [("matchedAddress", JString "1600 PENNSYLVANIA AVE NW");
             ("coordinates", JObject [("x", JFloat (-77.0365));
                                      ("y", JFloat 38.8977)])]])])].

Definition no_match_json : json :=
  JObject [("result", JObject [("addressMatches", JArray [])])].

Definition errors_json : json :=
  JObject [("errors", JArray [JString "Street address cannot be empty"])].

Definition forecast_url : string :=
  "https://api.weather.gov/gridpoints/LWX/97,71/forecast".

Definition points_json : json :=
  JObject [("properties", JObject [
    ("gridX", JInt 97); ("gridY", JInt 71); ("cwa", JString "LWX");
    ("forecast", JString forecast_url);
    ("forecastHourly", JString (forecast_url ++ "/hourly"));
    ("forecastGridData",
     JString "https://api.weather.gov/gridpoints/LWX/97,71");
    ("timeZone", JString "America/New_York")])].

Definition period_json : json :=
  JObject [("name", JString "Today");
           ("startTime", JString "2024-07-01T06:00:00-04:00");
           ("endTime", JString "2024-07-01T18:00:00-04:00");
           ("isDaytime", JBool true);
           ("temperature", JInt 100);
           ("temperatureUnit", JString "F");
           ("probabilityOfPrecipitation", JObject [("value", JNull)]);
           ("relativeHumidity", JObject [("value", JInt 10)]);
           ("dewpoint", JObject [("value", JFloat 1.5);
                                 ("unitCode", JString "wmoUnit:degC")]);
           ("windSpeed", JString "10 mph");
           ("windDirection", JString "NW");
           ("shortForecast", JString "Sunny");
           ("detailedForecast", JString "Sunny, with a high near 100.")].

Definition weekly_json : json :=
  JObject [("properties", JObject [("periods", JArray [period_json])])].

Definition empty_weekly_json : json :=
  JObject [("properties", JObject [("periods", JArray [])])].

Definition sample_table : list (string * json) :=
  [("body:white-house", white_house_json);
   ("body:no-match", no_match_json);
   ("body:errors", errors_json);
   ("body:no-errors", JObject [("status", JInt 500)]);
   ("body:points", points_json);
   ("body:weekly", weekly_json)].

(** A service that answers every request with the same response. *)
Definition always (status : Z) (body : string) : Request -> GetResult :=
  fun _ => Responded (mkResponse status body).

(** The weather service: the forecast URL answers [weekly], any other URL
    answers with the points document. *)
Definition weather_service (weekly : Response) : Request -> GetResult :=
  fun q =>
    match url q with
    | JString u =>
        if String.eqb u forecast_url then Responded weekly
        else Responded (mkResponse 200 "body:points")
    | _ => Failed (RequestException "MissingSchema")
    end.

Definition white_house : Coordinates :=
  mkCoordinates (PFloat 38.8977) (PFloat (-77.0365)).

Definition sample_client : NWSClient.t := NWSClient.mk "pynws-check".

(** A service that answers 304 Not Modified, with a body that carries an
    [errors] field. *)
Definition not_modified_env : Env :=
  sample_env (always 304 "body:errors") sample_table.

(** A forecast cached at time 0 that stays valid for one hour. *)
Definition hourly_cached : WeeklyForecast.t :=
  WeeklyForecast.mk 0 [] (MaxAgeTimedelta 3600000000%Z) (mkDatetime 0 None).

(** A world in which one object exists and the clock was read once. *)
Definition world1 : World := mkWorld [] 1 1.

(** The weather service in working order, and a first call of
    [get_weekly_forecast] against it. *)
Definition weather_env : Env :=
  sample_env (weather_service (mkResponse 200 "body:weekly")) sample_table.

Definition fetched : result WeeklyForecast.t * World :=
  NWSClient.get_weekly_forecast weather_env sample_client white_house None
    world0.

(** ** Vocabulary of the claims *)

(** What the [except] clause raises for a response [r] whose body decodes to
    the object [o]. *)
Definition handled_error (r : Response) (o : list (string * json))
    : PyError :=
  match assoc "errors" o with
  | Some v => if truthy v then ValueError v else HTTPError r
  | None => HTTPError r
  end.

(** The cached result does not serve: there is none, or it is expired;
    [w0] is the world after that check. *)
Definition cache_miss (env : Env) (cached : option WeeklyForecast.t)
    (w w0 : World) : Prop :=
  match cached with
  | None => w0 = w
  | Some c => WeeklyForecast.is_expired env c w = (Ok true, w0)
  end.

(** Every run of [m] leaves the world in relation [R] with the one it
    started from. *)
Definition post {A : Type} (R : World -> World -> Prop) (m : M A) : Prop :=
  forall w, R w (snd (m w)).

(** The calls made between two worlds all satisfy [P]. *)
Definition calls_added (P : Request -> Prop) (w w' : World) : Prop :=
  exists new, calls w' = (calls w ++ new)%list /\ Forall P new.

(** No call is made and no object is created between two worlds. *)
Definition quiet (w w' : World) : Prop :=
  calls w' = calls w /\ next_id w' = next_id w.

(** The clock does not go back to an earlier reading and no object is
    created between two worlds. *)
Definition advances (w w' : World) : Prop :=
  (ticks w <= ticks w')%nat /\ next_id w' = next_id w.

Definition carries_user_agent (ua : string) (q : Request) : Prop :=
  headers q = [("User-Agent", ua)].

(** ** Vocabulary and data of the further properties *)

(** The query the geocoding lookup sends: the three fixed parameters, then
    those of city, state and zip that are not empty. *)
Definition geocoder_params (address city state zip : string)
    : list (string * string) :=
  ([("format", "json"); ("benchmark", "2020"); ("street", address)]
   ++ filter (fun kv => negb (String.eqb (snd kv) ""))
        [("city", city); ("state", state); ("zip", zip)])%list.

(** The world after one more call of [requests.get]. *)
Definition called (q : Request) (w : World) : World :=
  mkWorld (calls w ++ [q])%list (ticks w) (next_id w).

(** The world after one more reading of the clock. *)
Definition ticked (w : World) : World :=
  mkWorld (calls w) (S (ticks w)) (next_id w).

(** Nothing happens between two worlds. *)
Definition unchanged (w w' : World) : Prop := w' = w.

(** The keys [LocationData.__init__] reads under [properties], in the order
    it reads them. *)
Definition location_keys : list string :=
  ["gridX"; "gridY"; "cwa"; "forecast"; "forecastHourly";
   "forecastGridData"; "timeZone"].

(** The first key of [keys] that [o] lacks. *)
Fixpoint first_missing (o : list (string * json)) (keys : list string)
    : option string :=
  match keys with
  | [] => None
  | k :: keys' =>
      match assoc k o with
      | Some _ => first_missing o keys'
      | None => Some k
      end
  end.

(** The request a client sends to a URL of the weather service. *)
Definition weather_request (self : NWSClient.t) (u : json) : Request :=
  mkRequest u [] [("User-Agent", NWSClient.user_agent self)].

Definition further_table : list (string * json) :=
  [("body:no-result", JObject [("status", JString "ok")]);
   ("body:no-matches-key",
    JObject [("result", JObject [("input", JString "1 Main Street")])]);
   ("body:weekly", weekly_json);
   ("body:points", points_json)].

(** Another period with the temperature and humidity of [period_json]. *)
Definition night_period_json : json :=
  JObject [("name", JString "Tonight");
           ("startTime", JString "2024-07-01T18:00:00-04:00");
           ("endTime", JString "2024-07-02T06:00:00-04:00");
           ("isDaytime", JBool false);
           ("temperature", JInt 100);
           ("temperatureUnit", JString "F");
           ("probabilityOfPrecipitation", JObject [("value", JInt 20)]);
           ("relativeHumidity", JObject [("value", JInt 10)]);
           ("dewpoint", JObject [("value", JFloat 2.5);
                                 ("unitCode", JString "wmoUnit:degC")]);
           ("windSpeed", JString "5 mph");
           ("windDirection", JString "S");
           ("shortForecast", JString "Clear");
           ("detailedForecast", JString "Clear, with a low around 100.")].

(** A service that cannot be reached. *)
Definition unreachable : Request -> GetResult :=
  fun _ => Failed (RequestException "ConnectionError").

(** A rendering of directives, for the examples: the directive text itself. *)
Definition sample_render (d : datetime) (rest : string) : string := rest.

(** * Properties *)

(** ** Evaluation of arithmetic on integers and doubles *)

Lemma num_le_int (a b : Z) : num_le (PInt a) (PInt b) = (a <=? b)%Z.
Proof.
  unfold num_le, num_compare, Z.leb. now destruct (a ?= b)%Z.
Qed.

Lemma num_lt_int (a b : Z) : num_lt (PInt a) (PInt b) = (a <? b)%Z.
Proof.
  unfold num_lt, num_compare, Z.ltb. now destruct (a ?= b)%Z.
Qed.

Lemma num_gt_int (a b : Z) : num_gt (PInt a) (PInt b) = (b <? a)%Z.
Proof.
  unfold num_gt, num_compare. rewrite Z.ltb_compare, (Z.compare_antisym a b).
  now destruct (a ?= b)%Z.
Qed.

(** Two conditions of the integer arguments, as the program tests them. *)
Lemma low_condition (T RH : Z) :
  (I 80 <= I T and I T <= I 112 and I RH < I 13)%py
  = Ok ((80 <=? T) && ((T <=? 112) && (RH <? 13)))%Z%bool.
Proof.
  unfold I, cmpop, and_then; cbn [bind].
  rewrite !num_le_int, num_lt_int.
  now destruct (80 <=? T)%Z, (T <=? 112)%Z.
Qed.

Lemma high_condition (T RH : Z) :
  (I RH > I 85 and I 80 <= I T and I T <= I 87)%py
  = Ok ((85 <? RH) && ((80 <=? T) && (T <=? 87)))%Z%bool.
Proof.
  unfold I, cmpop, and_then; cbn [bind].
  rewrite !num_le_int, num_gt_int.
  now destruct (85 <? RH)%Z, (80 <=? T)%Z.
Qed.

(** The two estimates on integer arguments that convert to doubles. *)
Lemma base_estimate_int (T RH : Z) (ft frh : float) :
  float_of_int T = Ok ft -> float_of_int RH = Ok frh ->
  (F 0.5 * (I T + F 61.0 + ((I T - F 68.0) * F 1.2) + (I RH * F 0.094)))%py
  = F (base_estimate ft frh).
Proof.
  intros HT HRH. unfold F, I, binop.
  repeat (progress (cbn [bind num_add num_sub num_mul to_float];
                    rewrite ?HT, ?HRH)).
  reflexivity.
Qed.

Lemma rothfusz_int (T RH : Z) (ft frh : float) :
  float_of_int T = Ok ft -> float_of_int RH = Ok frh ->
  (F (-42.379) + F 2.04901523 * I T + F 10.14333127 * I RH
   - F 0.22475541 * I T * I RH - F 0.00683783 * I T * I T
   - F 0.05481717 * I RH * I RH + F 0.00122874 * I T * I T * I RH
   + F 0.00085282 * I T * I RH * I RH
   - F 0.00000199 * I T * I T * I RH * I RH)%py
  = F (rothfusz ft frh).
Proof.
  intros HT HRH. unfold F, I, binop.
  repeat (progress (cbn [bind num_add num_sub num_mul to_float];
                    rewrite ?HT, ?HRH)).
  reflexivity.
Qed.

Lemma range_forallb (P : Z -> bool) (lo : Z) (n : nat) :
  forallb P (range lo n) = true ->
  forall z, (lo <= z < lo + Z.of_nat n)%Z -> P z = true.
Proof.
  intros H z Hz. rewrite forallb_forall in H. apply H.
  unfold range. apply in_map_iff. exists (Z.to_nat (z - lo)). split.
  - lia.
  - apply in_seq. lia.
Qed.

Lemma sqrt_argument_ok_range (T : Z) :
  (80 <= T <= 112)%Z -> sqrt_argument_ok T = true.
Proof.
  intros H. apply (range_forallb sqrt_argument_ok 80 33).
  - vm_compute. reflexivity.
  - lia.
Qed.

(** The low-humidity correction as the program evaluates it. *)
Lemma low_adjustment_eval (T RH : Z) (hi : float) :
  (80 <= T <= 112)%Z ->
  (F hi - ((I 13 - I RH) / I 4) * sqrt((I 17 - abs(I T - I 95)) / I 17))%py
  = (do adj <- low_humidity_adjustment T RH; Ok (PFloat (hi - adj)))%py.
Proof.
  intros HT. apply sqrt_argument_ok_range in HT.
  unfold sqrt_argument_ok in HT.
  unfold low_humidity_adjustment, F, I, binop.
  cbn [bind num_sub num_truediv num_abs].
  destruct (int_true_div (13 - RH) 4) as [a|e]; cbn [bind]; [|reflexivity].
  destruct (int_true_div (17 - Z.abs (T - 95)) 17) as [b|e]; [|discriminate].
  cbn [bind]. unfold math_sqrt. cbn [bind to_float].
  destruct (b <? 0)%float; [discriminate|].
  reflexivity.
Qed.

(** The high-humidity correction as the program evaluates it. *)
Lemma high_adjustment_eval (T RH : Z) (hi : float) :
  (F hi + ((I RH - I 85) / I 10) * ((I 87 - I T) / I 5))%py
  = (do adj <- high_humidity_adjustment T RH; Ok (PFloat (hi + adj)))%py.
Proof.
  unfold high_humidity_adjustment, F, I, binop.
  cbn [bind num_sub num_truediv].
  destruct (int_true_div (RH - 85) 10) as [a|e]; cbn [bind]; [|reflexivity].
  destruct (int_true_div (87 - T) 5) as [b|e]; reflexivity.
Qed.

Lemma low_adjustment_defined (T RH : Z) :
  (80 <= T <= 112)%Z -> (0 <= RH < 13)%Z ->
  exists adj, low_humidity_adjustment T RH = Ok adj.
Proof.
  intros HT HRH.
  assert (Ha : is_ok (int_true_div (13 - RH) 4) = true).
  { apply (range_forallb (fun z => is_ok (int_true_div (13 - z) 4)) 0 13).
    - vm_compute. reflexivity.
    - lia. }
  apply sqrt_argument_ok_range in HT. unfold sqrt_argument_ok in HT.
  unfold low_humidity_adjustment.
  destruct (int_true_div (13 - RH) 4) as [a|e]; [|discriminate].
  destruct (int_true_div (17 - Z.abs (T - 95)) 17) as [b|e]; [|discriminate].
  cbn [bind]. eexists. reflexivity.
Qed.

Lemma high_adjustment_defined (T RH : Z) :
  (80 <= T <= 87)%Z -> (85 < RH <= 100)%Z ->
  exists adj, high_humidity_adjustment T RH = Ok adj.
Proof.
  intros HT HRH.
  assert (Ha : is_ok (int_true_div (RH - 85) 10) = true).
  { apply (range_forallb (fun z => is_ok (int_true_div (z - 85) 10)) 86 15).
    - vm_compute. reflexivity.
    - lia. }
  assert (Hb : is_ok (int_true_div (87 - T) 5) = true).
  { apply (range_forallb (fun z => is_ok (int_true_div (87 - z) 5)) 80 8).
    - vm_compute. reflexivity.
    - lia. }
  unfold high_humidity_adjustment.
  destruct (int_true_div (RH - 85) 10) as [a|e]; [|discriminate].
  destruct (int_true_div (87 - T) 5) as [b|e]; [|discriminate].
  cbn [bind]. eexists. reflexivity.
Qed.

(** ** Claims on the heat index *)

(** C1: for a forecast with integer temperature [T] and relative humidity
    [RH] (both convertible to doubles), [heat_index] returns the base
    estimate when that estimate is below 80; otherwise it returns the
    Rothfusz regression, minus the low-humidity correction exactly when
    [80 <= T <= 112] and [RH < 13], plus the high-humidity correction exactly
    when [RH > 85] and [80 <= T <= 87], and uncorrected in all other cases.
    The two corrections exclude each other, and both are defined for a
    humidity between 0 and 100. *)
Theorem heat_index_piecewise (self : Forecast.t) (T RH : Z) (ft frh : float) :
  Forecast.temperature self = JInt T ->
  Forecast.relative_humidity self = JInt RH ->
  float_of_int T = Ok ft ->
  float_of_int RH = Ok frh ->
  let base := base_estimate ft frh in
  let hi := rothfusz ft frh in
  let low := (80 <= T <= 112 /\ RH < 13)%Z in
  let high := (RH > 85 /\ 80 <= T <= 87)%Z in
  (num_ge (PFloat base) (PInt 80) = false ->
   Forecast.heat_index self = Ok (PFloat base)) /\
  (num_ge (PFloat base) (PInt 80) = true ->
   (low ->
    Forecast.heat_index self
    = (do adj <- low_humidity_adjustment T RH; Ok (PFloat (hi - adj)))%py) /\
   (high ->
    Forecast.heat_index self
    = (do adj <- high_humidity_adjustment T RH; Ok (PFloat (hi + adj)))%py) /\
   (~ low -> ~ high -> Forecast.heat_index self = Ok (PFloat hi))) /\
  ~ (low /\ high) /\
  (low -> (0 <= RH)%Z -> exists adj, low_humidity_adjustment T RH = Ok adj) /\
  (high -> (RH <= 100)%Z ->
   exists adj, high_humidity_adjustment T RH = Ok adj).
Proof.
  intros Ht Hrh HT HRH base hi low high.
  assert (Hbase : forall c : bool,
    num_ge (PFloat base) (PInt 80) = c ->
    Forecast.heat_index self
    = if c then
        (do hi' <- F hi;
         do c1 <- I 80 <= I T and I T <= I 112 and I RH < I 13;
         if c1 : bool then
           Ok hi' - ((I 13 - I RH) / I 4)
                    * sqrt((I 17 - abs(I T - I 95)) / I 17)
         else
           do c2 <- I RH > I 85 and I 80 <= I T and I T <= I 87;
           if c2 : bool then
             Ok hi' + ((I RH - I 85) / I 10) * ((I 87 - I T) / I 5)
           else Ok hi')%py
      else Ok (PFloat base)).
  { intros c Hc. unfold Forecast.heat_index. rewrite Ht, Hrh. cbn [as_num].
    change (Ok (PInt T)) with (I T). change (Ok (PInt RH)) with (I RH).
    rewrite (base_estimate_int T RH ft frh HT HRH).
    rewrite (rothfusz_int T RH ft frh HT HRH).
    unfold F at 1. cbn [bind]. unfold cmpop at 1. unfold I at 1. cbn [bind].
    fold base. rewrite Hc. destruct c; reflexivity. }
  split; [|split; [|split; [|split]]].
  - intros Hc. apply (Hbase false Hc).
  - intros Hc. rewrite (Hbase true Hc). unfold F at 1. cbn [bind].
    rewrite low_condition, high_condition. cbn [bind].
    split; [|split].
    + intros [HT' HRH'].
      replace ((80 <=? T)%Z && ((T <=? 112)%Z && (RH <? 13)%Z)) with true
        by (symmetry; rewrite !andb_true_iff, !Z.leb_le, Z.ltb_lt; lia).
      apply (low_adjustment_eval T RH hi HT').
    + intros [HRH' HT'].
      replace ((80 <=? T)%Z && ((T <=? 112)%Z && (RH <? 13)%Z)) with false
        by (symmetry; rewrite !andb_false_iff, !Z.leb_gt, Z.ltb_ge; lia).
      replace ((85 <? RH)%Z && ((80 <=? T)%Z && (T <=? 87)%Z)) with true
        by (symmetry; rewrite !andb_true_iff, !Z.leb_le, Z.ltb_lt; lia).
      apply (high_adjustment_eval T RH hi).
    + intros Hlow Hhigh.
      replace ((80 <=? T)%Z && ((T <=? 112)%Z && (RH <? 13)%Z)) with false
        by (symmetry; rewrite !andb_false_iff, !Z.leb_gt, Z.ltb_ge;
            unfold low in Hlow; lia).
      replace ((85 <? RH)%Z && ((80 <=? T)%Z && (T <=? 87)%Z)) with false
        by (symmetry; rewrite !andb_false_iff, !Z.leb_gt, Z.ltb_ge;
            unfold high in Hhigh; lia).
      reflexivity.
  - unfold low, high. lia.
  - intros [HT' HRH'] H0. apply low_adjustment_defined; lia.
  - intros [HRH' HT'] H100. apply high_adjustment_defined; lia.
Qed.

Lemma heat_index_piecewise_witness :
  Forecast.heat_index (sample_forecast (JInt 100) (JInt 10))
  = (do adj <- low_humidity_adjustment 100 10;
     Ok (PFloat (rothfusz 100 10 - adj)))%py.
Proof.
  pose proof (heat_index_piecewise (sample_forecast (JInt 100) (JInt 10))
                100 10 100 10 eq_refl eq_refl eq_refl eq_refl) as H.
  cbv zeta in H. destruct H as [_ [H _]].
  destruct (H eq_refl) as [Hlow _]. apply Hlow. lia.
Defined.

(** C2 (as stated, refuted): with [T = 70] and [RH = 50] the value returned
    is not 70.2. *)
Lemma heat_index_70_50_is_not_70_2 :
  Forecast.heat_index (sample_forecast (JInt 70) (JInt 50))
  <> Ok (PFloat 70.2).
Proof.
  intros H.
  assert (E : match Forecast.heat_index (sample_forecast (JInt 70) (JInt 50))
              with
              | Ok (PFloat f) => (f <? 70)%float
              | _ => false
              end = true) by (vm_compute; reflexivity).
  rewrite H in E. vm_compute in E. discriminate E.
Qed.

(** C2 (amended): with [T = 70] and [RH = 50], [heat_index] takes the base
    branch only (the base estimate is below 80) and returns the base
    estimate, which is 69.05: the nearest double in the arithmetic of the
    program, and exactly 69.05 in rational arithmetic. *)
Theorem heat_index_70_50 (self : Forecast.t) :
  Forecast.temperature self = JInt 70 ->
  Forecast.relative_humidity self = JInt 50 ->
  Forecast.heat_index self = Ok (PFloat (base_estimate 70 50)) /\
  num_ge (PFloat (base_estimate 70 50)) (PInt 80) = false /\
  base_estimate 70 50 = 69.05%float /\
  (base_estimate_exact 70 50 == 6905 # 100)%Q.
Proof.
  intros Ht Hrh. split; [|split; [|split]].
  - unfold Forecast.heat_index. rewrite Ht, Hrh. vm_compute. reflexivity.
  - vm_compute. reflexivity.
  - vm_compute. reflexivity.
  - vm_compute. reflexivity.
Qed.

Lemma heat_index_70_50_witness :
  Forecast.heat_index (sample_forecast (JInt 70) (JInt 50))
  = Ok (PFloat 69.05).
Proof.
  destruct (heat_index_70_50 (sample_forecast (JInt 70) (JInt 50))
              eq_refl eq_refl) as [H [_ [E _]]].
  rewrite H, E. reflexivity.
Defined.

(** ** Running the world monad *)

Ltac run :=
  cbv beta iota zeta
      delta [bindM try_get requests_get lift ret raise bind local fst snd].

Lemma raise_for_status_ok (r : Response) :
  (status_code r < 400 \/ 600 <= status_code r)%Z ->
  raise_for_status r = Ok tt.
Proof.
  intros H. unfold raise_for_status.
  replace ((400 <=? status_code r)%Z && (status_code r <? 600)%Z) with false;
    [reflexivity|].
  symmetry. apply andb_false_iff. rewrite Z.leb_gt, Z.ltb_ge. lia.
Qed.

Lemma raise_for_status_error (r : Response) :
  (400 <= status_code r < 600)%Z ->
  raise_for_status r = Raise (HTTPError r).
Proof.
  intros H. unfold raise_for_status.
  replace ((400 <=? status_code r)%Z && (status_code r <? 600)%Z) with true;
    [reflexivity|].
  symmetry. apply andb_true_iff. rewrite Z.leb_le, Z.ltb_lt. lia.
Qed.

Lemma getitem_int_first (a : json) (l : list json) :
  getitem_int (JArray (a :: l)) 0 = Ok a.
Proof.
  unfold getitem_int. cbn [Z.ltb Z.compare List.length].
  replace ((0 <=? 0)%Z && (0 <? Z.of_nat (S (List.length l)))%Z) with true.
  - reflexivity.
  - symmetry. apply andb_true_iff. rewrite Z.leb_le, Z.ltb_lt. lia.
Qed.

Lemma len_cons (a : json) (l : list json) :
  exists n, len (JArray (a :: l)) = Ok n /\ (n =? 0)%Z = false.
Proof.
  eexists. split; [reflexivity|]. apply Z.eqb_neq.
  cbn [List.length]. lia.
Qed.

Lemma assoc_some_truthy (k : string) (o : list (string * json)) (v : json) :
  assoc k o = Some v -> truthy (JObject o) = true.
Proof.
  destruct o; [discriminate|reflexivity].
Qed.

Lemma getitem_some (k : string) (o : list (string * json)) (v : json) :
  assoc k o = Some v -> getitem (JObject o) k = Ok v.
Proof.
  intros H. unfold getitem. now rewrite H.
Qed.

Lemma dict_get_some (k : string) (o : list (string * json)) (v : json) :
  assoc k o = Some v -> dict_get (JObject o) k = Ok v.
Proof.
  intros H. unfold dict_get. now rewrite H.
Qed.

(** The [except] clause, once the response is bound and its status is an
    error status. *)
Ltac handle Hjson :=
  rewrite Hjson; run; unfold handled_error, dict_get, getitem;
  match goal with
  | |- context [assoc "errors" ?o] =>
      destruct (assoc "errors" o) as [v|]; [destruct (truthy v)|]; reflexivity
  end.

(** ** Claims on the geocoding lookup *)

(** C3: on a successful response whose [result.addressMatches] is a
    non-empty list, [get_coords_from_address] returns the coordinates of the
    first match only, latitude from [y] and longitude from [x], each rounded
    to four decimals; with [x = -77.0365] and [y = 38.8977] the result is
    [Coordinates(38.8977, -77.0365)]. *)
Theorem geocode_first_match (env : Env) (address city state zip : string)
    (w : World) (r : Response) (o res : list (string * json))
    (first raw vy vx : json) (rest : list json) (ny nx : pynum) :
  (forall q, network env (calls w) q = Responded r) ->
  (200 <= status_code r < 300)%Z ->
  json_loads env (content r) = Ok (JObject o) ->
  assoc "result" o = Some (JObject res) ->
  assoc "addressMatches" res = Some (JArray (first :: rest)) ->
  getitem first "coordinates" = Ok raw ->
  getitem raw "y" = Ok vy ->
  getitem raw "x" = Ok vx ->
  as_num vy = Ok ny ->
  as_num vx = Ok nx ->
  fst (get_coords_from_address env address city state zip w)
  = Ok (mkCoordinates (num_round4 ny) (num_round4 nx)) /\
  (vy = JFloat 38.8977 -> vx = JFloat (-77.0365) ->
   fst (get_coords_from_address env address city state zip w)
   = Ok (mkCoordinates (PFloat 38.8977) (PFloat (-77.0365)))).
Proof.
  intros Hnet Hst Hjson Hres Hmatches Hraw Hy Hx Hny Hnx.
  assert (Hrun : fst (get_coords_from_address env address city state zip w)
                 = Ok (mkCoordinates (num_round4 ny) (num_round4 nx))).
  { pose proof (getitem_some _ _ _ Hres) as Gres.
    pose proof (dict_get_some _ _ _ Hres) as Dres.
    pose proof (getitem_some _ _ _ Hmatches) as Gm.
    pose proof (dict_get_some _ _ _ Hmatches) as Dm.
    destruct (len_cons first rest) as [n [Hlen Hn]].
    unfold get_coords_from_address. run. rewrite Hnet.
    rewrite (raise_for_status_ok r) by lia. run.
    rewrite Hjson. run. rewrite Dres.
    rewrite (assoc_some_truthy _ _ _ Hmatches). cbn [negb].
    rewrite Gres. run. rewrite Dm, Hlen. run. rewrite Hn, Gm. run.
    rewrite getitem_int_first. run.
    rewrite Hraw. run. rewrite Hy. run.
    unfold py_round4. rewrite Hny. run. rewrite Hx. run. rewrite Hnx. run.
    reflexivity. }
  split; [exact Hrun|].
  intros Ey Ex. rewrite Hrun. subst vy vx.
  cbn [as_num] in Hny, Hnx. injection Hny as <-. injection Hnx as <-.
  vm_compute. reflexivity.
Qed.

Lemma geocode_first_match_witness :
  fst (get_coords_from_address
         (sample_env (always 200 "body:white-house") sample_table)
         "1600 Pennsylvania Avenue" "Washington" "DC" "" world0)
  = Ok white_house.
Proof.
  refine (proj2 (geocode_first_match
                   (sample_env (always 200 "body:white-house") sample_table)
                   "1600 Pennsylvania Avenue" "Washington" "DC" "" world0
                   (mkResponse 200 "body:white-house")
                   _ _ _ _ (JFloat 38.8977) (JFloat (-77.0365)) _
                   (PFloat 38.8977) (PFloat (-77.0365))
                   (fun _ => eq_refl) _ eq_refl eq_refl eq_refl eq_refl
                   eq_refl eq_refl eq_refl eq_refl) eq_refl eq_refl).
  cbn. lia.
Defined.

(** C4: on a successful response that has a [result] whose [addressMatches]
    list is empty, [get_coords_from_address] raises the address-not-found
    error, whose message holds the street, city, state and zip submitted; it
    does not fail on an index into the empty list. *)
Theorem geocode_no_match (env : Env) (address city state zip : string)
    (w : World) (r : Response) (o res : list (string * json)) :
  (forall q, network env (calls w) q = Responded r) ->
  (200 <= status_code r < 300)%Z ->
  json_loads env (content r) = Ok (JObject o) ->
  assoc "result" o = Some (JObject res) ->
  assoc "addressMatches" res = Some (JArray []) ->
  fst (get_coords_from_address env address city state zip w)
  = Raise (ValueError (JString
      ("Invalid address: " ++ address ++ " " ++ city ++ " " ++ state ++ " "
         ++ zip))) /\
  fst (get_coords_from_address env address city state zip w)
  <> Raise IndexError.
Proof.
  intros Hnet Hst Hjson Hres Hmatches.
  assert (Hrun : fst (get_coords_from_address env address city state zip w)
                 = Raise (ValueError (JString
                     ("Invalid address: " ++ address ++ " " ++ city ++ " "
                        ++ state ++ " " ++ zip)))).
  { pose proof (getitem_some _ _ _ Hres) as Gres.
    pose proof (dict_get_some _ _ _ Hres) as Dres.
    pose proof (dict_get_some _ _ _ Hmatches) as Dm.
    unfold get_coords_from_address. run. rewrite Hnet.
    rewrite (raise_for_status_ok r) by lia. run.
    rewrite Hjson. run. rewrite Dres.
    rewrite (assoc_some_truthy _ _ _ Hmatches). cbn [negb].
    rewrite Gres. run. rewrite Dm. cbn [len List.length Z.of_nat Z.eqb].
    run. reflexivity. }
  split; [exact Hrun|]. rewrite Hrun. discriminate.
Qed.

Lemma geocode_no_match_witness :
  fst (get_coords_from_address
         (sample_env (always 200 "body:no-match") sample_table)
         "1 Nowhere Road" "Atlantis" "ZZ" "00000" world0)
  = Raise (ValueError
             (JString "Invalid address: 1 Nowhere Road Atlantis ZZ 00000")).
Proof.
  refine (proj1 (geocode_no_match
                   (sample_env (always 200 "body:no-match") sample_table)
                   "1 Nowhere Road" "Atlantis" "ZZ" "00000" world0
                   (mkResponse 200 "body:no-match") _ _
                   (fun _ => eq_refl) _ eq_refl eq_refl eq_refl)).
  cbn. lia.
Defined.

(** ** Claims on the handling of HTTP errors *)

(** C5 (as stated, refuted): a 304 response is not a 2xx response and its
    body carries a non-empty [errors] field, yet neither the geocoding lookup
    nor the location resolution raises an error carrying that field: both go
    on as for a successful response. *)
Lemma not_modified_is_not_handled :
  ~ (200 <= 304 < 300)%Z /\
  json_loads not_modified_env "body:errors" = Ok errors_json /\
  dict_get errors_json "errors"
  = Ok (JArray [JString "Street address cannot be empty"]) /\
  truthy (JArray [JString "Street address cannot be empty"]) = true /\
  fst (NWSClient.get_location_data not_modified_env sample_client white_house
         world0)
  = Raise (KeyError (JString "properties")) /\
  fst (get_coords_from_address not_modified_env "1 Main Street" "" "" ""
         world0)
  = Raise (ValueError (JString
      "Census geocoder returned unexpected JSON: b'body:errors'")).
Proof.
  split; [lia|]. repeat split; vm_compute; reflexivity.
Qed.

(** C5 (amended): at each request site (geocoding lookup, location
    resolution, weekly-forecast fetch), when the response has a 4xx or 5xx
    status and its body decodes to a JSON object, the client raises a
    [ValueError] carrying the content of the [errors] field when that field
    is present and true, and otherwise raises again the [HTTPError] of
    [raise_for_status]. *)
Theorem error_status_handling (env : Env) (r : Response)
    (o : list (string * json)) :
  (400 <= status_code r < 600)%Z ->
  json_loads env (content r) = Ok (JObject o) ->
  (forall address city state zip w,
     (forall q, network env (calls w) q = Responded r) ->
     fst (get_coords_from_address env address city state zip w)
     = Raise (handled_error r o)) /\
  (forall self coords u w,
     POINTS_API_URL (lat coords) (long coords) = Ok u ->
     (forall q, network env (calls w) q = Responded r) ->
     fst (NWSClient.get_location_data env self coords w)
     = Raise (handled_error r o)) /\
  (forall self coords cached w w0 loc w1,
     cache_miss env cached w w0 ->
     NWSClient.get_location_data env self coords w0 = (Ok loc, w1) ->
     (forall q, network env (calls w1) q = Responded r) ->
     fst (NWSClient.get_weekly_forecast env self coords cached w)
     = Raise (handled_error r o)).
Proof.
  intros Hst Hjson. pose proof (raise_for_status_error r Hst) as Hraise.
  split; [|split].
  - intros address city state zip w Hnet.
    unfold get_coords_from_address. run. rewrite Hnet, Hraise. run.
    handle Hjson.
  - intros self coords u w Hurl Hnet.
    unfold NWSClient.get_location_data. run. rewrite Hurl. run.
    rewrite Hnet, Hraise. run. handle Hjson.
  - intros self coords cached w w0 loc w1 Hmiss Hloc Hnet.
    unfold NWSClient.get_weekly_forecast.
    destruct cached as [c|]; cbn [cache_miss] in Hmiss.
    + run. rewrite Hmiss. cbn [negb]. run. rewrite Hloc. run.
      rewrite Hnet, Hraise. run. handle Hjson.
    + subst w0. run. rewrite Hloc. run.
      rewrite Hnet, Hraise. run. handle Hjson.
Qed.

Lemma error_status_handling_witness :
  fst (get_coords_from_address
         (sample_env (always 400 "body:errors") sample_table)
         "" "" "" "" world0)
  = Raise (ValueError (JArray [JString "Street address cannot be empty"])) /\
  fst (NWSClient.get_location_data
         (sample_env (always 500 "body:no-errors") sample_table)
         sample_client white_house world0)
  = Raise (HTTPError (mkResponse 500 "body:no-errors")).
Proof.
  split.
  - refine (proj1 (error_status_handling
                     (sample_env (always 400 "body:errors") sample_table)
                     (mkResponse 400 "body:errors") _ _ eq_refl)
                  "" "" "" "" world0 (fun _ => eq_refl)).
    cbn. lia.
  - refine (proj1 (proj2 (error_status_handling
                     (sample_env (always 500 "body:no-errors") sample_table)
                     (mkResponse 500 "body:no-errors") _ _ eq_refl))
                  sample_client white_house _ world0 _ (fun _ => eq_refl)).
    + cbn. lia.
    + vm_compute. reflexivity.
Defined.

(** ** Claims on expiry and caching *)

Lemma weekly_is_expired_run (env : Env) (self : WeeklyForecast.t)
    (w : World) :
  WeeklyForecast.is_expired env self w
  = ((do elapsed <- datetime_sub (mkDatetime (clock env (ticks w)) None)
                      (WeeklyForecast.created self);
      timedelta_gt elapsed (WeeklyForecast.max_age self))%py,
     mkWorld (calls w) (S (ticks w)) (next_id w)).
Proof.
  unfold WeeklyForecast.is_expired, datetime_now. run.
  destruct (datetime_sub _ _); reflexivity.
Qed.

Lemma location_is_expired_run (env : Env) (self : LocationData.t)
    (w : World) :
  LocationData.is_expired env self w
  = ((do elapsed <- datetime_sub (mkDatetime (clock env (ticks w)) None)
                      (LocationData.created self);
      timedelta_gt elapsed (LocationData.max_age self))%py,
     mkWorld (calls w) (S (ticks w)) (next_id w)).
Proof.
  unfold LocationData.is_expired, datetime_now. run.
  destruct (datetime_sub _ _); reflexivity.
Qed.

(** With a [timedelta] as [max_age], on an object created by the program
    (its creation time is naive), [is_expired] is the comparison of the
    elapsed time with [max_age]. *)
Lemma weekly_is_expired_timedelta (env : Env) (self : WeeklyForecast.t)
    (w : World) (d : timedelta) :
  WeeklyForecast.max_age self = MaxAgeTimedelta d ->
  utcoffset (WeeklyForecast.created self) = None ->
  fst (WeeklyForecast.is_expired env self w)
  = Ok (d <? clock env (ticks w) - micros (WeeklyForecast.created self))%Z.
Proof.
  intros Hage Hnaive. rewrite weekly_is_expired_run. cbn [fst].
  unfold datetime_sub. cbn [utcoffset micros]. rewrite Hnaive, Hage.
  reflexivity.
Qed.

(** C6: when the cached forecast passed to [get_weekly_forecast] is not
    expired by its own check, that same object is returned, no request is
    sent and no object is created. *)
Theorem cached_short_circuit (env : Env) (self : NWSClient.t)
    (coords : Coordinates) (cached : WeeklyForecast.t) (w w1 : World) :
  WeeklyForecast.is_expired env cached w = (Ok false, w1) ->
  NWSClient.get_weekly_forecast env self coords (Some cached) w
  = (Ok cached, w1) /\
  calls w1 = calls w /\
  next_id w1 = next_id w.
Proof.
  intros Hfresh. split.
  - unfold NWSClient.get_weekly_forecast. run. rewrite Hfresh. reflexivity.
  - rewrite weekly_is_expired_run in Hfresh.
    injection Hfresh as _ <-. split; reflexivity.
Qed.

Lemma cached_short_circuit_witness :
  NWSClient.get_weekly_forecast
    (sample_env (always 500 "body:errors") sample_table)
    sample_client white_house (Some hourly_cached) world1
  = (Ok hourly_cached, mkWorld [] 2 1).
Proof.
  apply (cached_short_circuit
           (sample_env (always 500 "body:errors") sample_table)
           sample_client white_house hourly_cached world1 (mkWorld [] 2 1)).
  reflexivity.
Defined.

(** C7 (the program at the failing input): with an [int] as [max_age], as
    annotated and as the default 0 is, [is_expired] raises [TypeError] at
    every time of check, for [WeeklyForecast] and for [LocationData]: it
    never returns true. *)
Theorem is_expired_int_max_age_raises (env : Env) (w : World) (n : Z) :
  (forall oid forecasts created,
     fst (WeeklyForecast.is_expired env
            (WeeklyForecast.mk oid forecasts (MaxAgeInt n) created) w)
     = Raise TypeError) /\
  (forall x y cwa weekly hourly grid timezone created,
     fst (LocationData.is_expired env
            (LocationData.mk x y cwa weekly hourly grid timezone
               (MaxAgeInt n) created) w)
     = Raise TypeError).
Proof.
  split; intros.
  - rewrite weekly_is_expired_run. cbn [fst]. unfold datetime_sub.
    cbn [utcoffset WeeklyForecast.created WeeklyForecast.max_age].
    destruct (utcoffset created); reflexivity.
  - rewrite location_is_expired_run. cbn [fst]. unfold datetime_sub.
    cbn [utcoffset LocationData.created LocationData.max_age].
    destruct (utcoffset created); reflexivity.
Qed.

(** ** Claims on the weekly forecast *)

(** C10: [today] returns the first forecast when there is one and raises
    [IndexError] otherwise; a [WeeklyForecast] built from a response whose
    [properties.periods] list is empty is built without error, holds no
    forecast, and [today] raises [IndexError] on it. *)
Theorem today_needs_a_period (env : Env) (forecast_json p : json)
    (max_age : max_age_value) (w : World) :
  getitem forecast_json "properties" = Ok p ->
  getitem p "periods" = Ok (JArray []) ->
  (exists self w',
     WeeklyForecast.__init__ env forecast_json max_age w = (Ok self, w') /\
     WeeklyForecast.forecasts self = [] /\
     WeeklyForecast.today self = Raise IndexError) /\
  (forall self : WeeklyForecast.t,
     WeeklyForecast.today self
     = match WeeklyForecast.forecasts self with
       | first :: _ => Ok first
       | [] => Raise IndexError
       end).
Proof.
  intros Hp Hperiods. split.
  - unfold WeeklyForecast.__init__, new_id, datetime_now. run.
    rewrite Hp. run. rewrite Hperiods. cbn [iter mapM]. run.
    eexists. eexists. split; [reflexivity|]. split; reflexivity.
  - intros self. unfold WeeklyForecast.today.
    destruct (WeeklyForecast.forecasts self); reflexivity.
Qed.

Lemma today_needs_a_period_witness :
  exists self w',
    WeeklyForecast.__init__ (sample_env (always 200 "body:weekly") sample_table)
      empty_weekly_json (MaxAgeInt 0) world0 = (Ok self, w') /\
    WeeklyForecast.forecasts self = [] /\
    WeeklyForecast.today self = Raise IndexError.
Proof.
  exact (proj1 (today_needs_a_period
                  (sample_env (always 200 "body:weekly") sample_table)
                  empty_weekly_json _ (MaxAgeInt 0) world0
                  eq_refl eq_refl)).
Defined.

(** ** Effects of the weather client on the world *)

Section Post.

Variable R : World -> World -> Prop.
Hypothesis R_refl : forall w, R w w.
Hypothesis R_trans : forall w1 w2 w3, R w1 w2 -> R w2 w3 -> R w1 w3.

Lemma post_ret (A : Type) (a : A) : post R (ret a).
Proof. intros w. apply R_refl. Qed.

Lemma post_raise (A : Type) (e : PyError) : post R (@raise A e).
Proof. intros w. apply R_refl. Qed.

Lemma post_lift (A : Type) (r : result A) : post R (lift r).
Proof. intros w. apply R_refl. Qed.

Lemma post_bind (A B : Type) (m : M A) (k : A -> M B) :
  post R m -> (forall a, post R (k a)) -> post R (bindM m k).
Proof.
  intros Hm Hk w. unfold bindM. specialize (Hm w).
  destruct (m w) as [[a|e] w1]; cbn [snd] in *.
  - apply (R_trans _ _ _ Hm). apply Hk.
  - exact Hm.
Qed.

Lemma post_try_get (env : Env) (q : Request) :
  (forall w, R w (mkWorld (calls w ++ [q])%list (ticks w) (next_id w))) ->
  post R (try_get env q).
Proof.
  intros H w. unfold try_get, requests_get.
  destruct (network env (calls w) q) as [r|e]; [|apply H].
  destruct (raise_for_status r); apply H.
Qed.

Lemma post_datetime_now (env : Env) :
  (forall w, R w (mkWorld (calls w) (S (ticks w)) (next_id w))) ->
  post R (datetime_now env).
Proof.
  intros H w. apply H.
Qed.

(** The [except] clause keeps the relation, whatever it raises. *)
Lemma post_handler (A : Type) (env : Env) (r : option Response)
    (e : PyError) :
  post R ((do r <- lift (local "r" r);
           do response <- lift (json_loads env (content r));
           do errors <- lift (dict_get response "errors");
           if truthy errors then
             do v <- lift (getitem response "errors");
             raise (ValueError v)
           else raise e)%io : M A).
Proof.
  apply post_bind; [apply post_lift|intros r'].
  apply post_bind; [apply post_lift|intros response].
  apply post_bind; [apply post_lift|intros errors].
  destruct (truthy errors); [|apply post_raise].
  apply post_bind; [apply post_lift|intros v]. apply post_raise.
Qed.

Lemma post_location_init (env : Env) (points_json : json)
    (max_age : max_age_value) :
  (forall w, R w (mkWorld (calls w) (S (ticks w)) (next_id w))) ->
  post R (LocationData.__init__ env points_json max_age).
Proof.
  intros Hnow. unfold LocationData.__init__.
  repeat (apply post_bind; [apply post_lift|intros ?]).
  apply post_bind; [apply post_datetime_now, Hnow|intros created].
  apply post_ret.
Qed.

Lemma post_get_location_data (env : Env) (self : NWSClient.t)
    (coords : Coordinates) :
  (forall w, R w (mkWorld (calls w) (S (ticks w)) (next_id w))) ->
  (forall q w, carries_user_agent (NWSClient.user_agent self) q ->
     R w (mkWorld (calls w ++ [q])%list (ticks w) (next_id w))) ->
  post R (NWSClient.get_location_data env self coords).
Proof.
  intros Hnow Hget. unfold NWSClient.get_location_data.
  apply post_bind; [apply post_lift|intros url_string].
  apply post_bind.
  - apply post_try_get. intros w. apply Hget. reflexivity.
  - intros [r|r e].
    + apply post_bind; [apply post_lift|intros response].
      apply post_location_init, Hnow.
    + apply post_handler.
Qed.

End Post.

Lemma calls_added_refl (P : Request -> Prop) (w : World) :
  calls_added P w w.
Proof.
  exists []. split; [now rewrite app_nil_r|constructor].
Qed.

Lemma calls_added_trans (P : Request -> Prop) (w1 w2 w3 : World) :
  calls_added P w1 w2 -> calls_added P w2 w3 -> calls_added P w1 w3.
Proof.
  intros [n1 [E1 F1]] [n2 [E2 F2]]. exists (n1 ++ n2)%list. split.
  - now rewrite E2, E1, app_assoc.
  - apply Forall_app. now split.
Qed.

Lemma calls_added_one (P : Request -> Prop) (w : World) (q : Request)
    (t n : nat) :
  P q -> calls_added P w (mkWorld (calls w ++ [q])%list t n).
Proof.
  intros H. exists [q]. split; [reflexivity|]. now constructor.
Qed.

Lemma calls_added_same (P : Request -> Prop) (w : World) (t n : nat) :
  calls_added P w (mkWorld (calls w) t n).
Proof.
  exists []. split; [cbn; now rewrite app_nil_r|constructor].
Qed.

Lemma advances_refl (w : World) : advances w w.
Proof. split; [apply Nat.le_refl|reflexivity]. Qed.

Lemma advances_trans (w1 w2 w3 : World) :
  advances w1 w2 -> advances w2 w3 -> advances w1 w3.
Proof.
  intros [T1 N1] [T2 N2]. split; [lia|congruence].
Qed.

Lemma get_location_data_advances (env : Env) (self : NWSClient.t)
    (coords : Coordinates) :
  post advances (NWSClient.get_location_data env self coords).
Proof.
  apply (post_get_location_data advances advances_refl advances_trans).
  - intros w. split; cbn; lia.
  - intros q w _. split; cbn; lia.
Qed.

Ltac run_in H :=
  cbv beta iota zeta
      delta [bindM try_get requests_get lift ret raise bind local fst snd]
    in H.

Ltac break_match H :=
  repeat match type of H with
         | context [match ?x with _ => _ end] =>
             destruct x eqn:?; try discriminate H
         end.

(** What a successful [WeeklyForecast.__init__] leaves behind. *)
Lemma weekly_init_ok (env : Env) (forecast_json : json)
    (max_age : max_age_value) (w w' : World) (self : WeeklyForecast.t) :
  WeeklyForecast.__init__ env forecast_json max_age w = (Ok self, w') ->
  WeeklyForecast.max_age self = max_age /\
  WeeklyForecast.created self = mkDatetime (clock env (ticks w)) None /\
  WeeklyForecast.oid self = next_id w /\
  w' = mkWorld (calls w) (S (ticks w)) (S (next_id w)).
Proof.
  intros H. unfold WeeklyForecast.__init__, new_id, datetime_now in H.
  run_in H. break_match H. injection H as <- <-.
  repeat split; reflexivity.
Qed.

(** C8: a forecast that [get_weekly_forecast] returns after a cache miss is
    a new object whose [max_age] is the default 0 and whose creation time is
    the reading of the clock made when it was built, the last one of the
    call: no max-age of the caller reaches it. *)
Theorem fetched_forecast_defaults (env : Env) (self : NWSClient.t)
    (coords : Coordinates) (cached : option WeeklyForecast.t)
    (w w0 w' : World) (wf : WeeklyForecast.t) :
  cache_miss env cached w w0 ->
  NWSClient.get_weekly_forecast env self coords cached w = (Ok wf, w') ->
  WeeklyForecast.max_age wf = MaxAgeInt 0 /\
  WeeklyForecast.created wf
  = mkDatetime (clock env (pred (ticks w'))) None /\
  (ticks w < ticks w')%nat /\
  WeeklyForecast.oid wf = pred (next_id w') /\
  (next_id w <= WeeklyForecast.oid wf)%nat.
Proof.
  intros Hmiss H.
  assert (Hw0 : advances w w0).
  { destruct cached as [c|]; cbn [cache_miss] in Hmiss.
    - rewrite weekly_is_expired_run in Hmiss. injection Hmiss as _ <-.
      split; cbn; lia.
    - subst w0. apply advances_refl. }
  assert (Hfetch :
    (do loc_data <- NWSClient.get_location_data env self coords;
     do a <- try_get env
               (mkRequest (LocationData.weekly_forecast_url loc_data) []
                  [("User-Agent", NWSClient.user_agent self)]);
     match a with
     | Excepted r e =>
         do r <- lift (local "r" r);
         do response <- lift (json_loads env (content r));
         do errors <- lift (dict_get response "errors");
         if truthy errors then
           do v <- lift (getitem response "errors");
           raise (ValueError v)
         else raise e
     | Completed r =>
         do response <- lift (json_loads env (content r));
         WeeklyForecast.__init__ env response (MaxAgeInt 0)
     end)%io w0 = (Ok wf, w')).
  { unfold NWSClient.get_weekly_forecast in H.
    destruct cached as [c|]; cbn [cache_miss] in Hmiss.
    - unfold bindM at 1 in H. rewrite Hmiss in H. exact H.
    - subst w0. exact H. }
  clear H. run_in Hfetch.
  pose proof (get_location_data_advances env self coords w0) as Hloc.
  destruct (NWSClient.get_location_data env self coords w0)
    as [[loc|e] w1]; [|discriminate Hfetch].
  cbn [snd] in Hloc.
  destruct (network env (calls w1) _) as [r|e];
    [destruct (raise_for_status r)|]; break_match Hfetch;
    try discriminate Hfetch.
  apply weekly_init_ok in Hfetch.
  destruct Hfetch as [Hage [Hcreated [Hoid ->]]].
  destruct Hw0 as [T0 N0]. destruct Hloc as [T1 N1].
  cbn [ticks next_id calls pred] in *.
  repeat split; try assumption; try lia.
Qed.

Lemma fetched_forecast_defaults_witness :
  exists wf w',
    fetched = (Ok wf, w') /\
    WeeklyForecast.max_age wf = MaxAgeInt 0 /\
    WeeklyForecast.created wf
    = mkDatetime (clock weather_env (pred (ticks w'))) None.
Proof.
  assert (E : exists wf w', fetched = (Ok wf, w')).
  { eexists. eexists. vm_compute. reflexivity. }
  destruct E as [wf [w' E]]. exists wf, w'. split; [exact E|].
  destruct (fetched_forecast_defaults weather_env sample_client white_house
              None world0 world0 w' wf eq_refl E) as [A [B _]].
  split; assumption.
Defined.

(** ** Claims on the identifying header *)

Lemma post_weekly_init (P : Request -> Prop) (env : Env)
    (forecast_json : json) (max_age : max_age_value) :
  post (calls_added P) (WeeklyForecast.__init__ env forecast_json max_age).
Proof.
  unfold WeeklyForecast.__init__.
  apply post_bind;
    [apply calls_added_trans| |intros oid].
  { intros w. apply calls_added_same. }
  apply post_bind;
    [apply calls_added_trans| |intros forecasts].
  { apply post_lift, calls_added_refl. }
  apply post_bind;
    [apply calls_added_trans| |intros created].
  { intros w. apply calls_added_same. }
  apply post_ret, calls_added_refl.
Qed.

Lemma get_location_data_calls (env : Env) (self : NWSClient.t)
    (coords : Coordinates) :
  post (calls_added (carries_user_agent (NWSClient.user_agent self)))
    (NWSClient.get_location_data env self coords).
Proof.
  apply post_get_location_data.
  - apply calls_added_refl.
  - apply calls_added_trans.
  - intros w. apply calls_added_same.
  - intros q w Hq. apply calls_added_one, Hq.
Qed.

Lemma get_weekly_forecast_calls (env : Env) (self : NWSClient.t)
    (coords : Coordinates) (cached : option WeeklyForecast.t) :
  post (calls_added (carries_user_agent (NWSClient.user_agent self)))
    (NWSClient.get_weekly_forecast env self coords cached).
Proof.
  set (P := carries_user_agent (NWSClient.user_agent self)).
  assert (Hfetch : post (calls_added P)
    (do loc_data <- NWSClient.get_location_data env self coords;
     do a <- try_get env
               (mkRequest (LocationData.weekly_forecast_url loc_data) []
                  [("User-Agent", NWSClient.user_agent self)]);
     match a with
     | Excepted r e =>
         do r <- lift (local "r" r);
         do response <- lift (json_loads env (content r));
         do errors <- lift (dict_get response "errors");
         if truthy errors then
           do v <- lift (getitem response "errors");
           raise (ValueError v)
         else raise e
     | Completed r =>
         do response <- lift (json_loads env (content r));
         WeeklyForecast.__init__ env response (MaxAgeInt 0)
     end)%io).
  { apply post_bind;
      [apply calls_added_trans| |intros loc].
    { apply get_location_data_calls. }
    apply post_bind;
      [apply calls_added_trans| |intros [r|r e]].
    - apply post_try_get. intros w. apply calls_added_one. reflexivity.
    - apply post_bind;
        [apply calls_added_trans| |intros response].
      + apply post_lift, calls_added_refl.
      + apply post_weekly_init.
    - apply post_handler; [apply calls_added_refl|apply calls_added_trans]. }
  unfold NWSClient.get_weekly_forecast. destruct cached as [c|].
  - apply post_bind;
      [apply calls_added_trans| |intros expired].
    + intros w. rewrite weekly_is_expired_run. apply calls_added_same.
    + destruct (negb expired); [|exact Hfetch].
      apply post_ret, calls_added_refl.
  - exact Hfetch.
Qed.

(** C9: [NWSClient] cannot be built with a missing or empty identifying
    string: the constructor, which sends nothing, raises; so a client holds a
    non-empty string, and every request that [get_location_data] and
    [get_weekly_forecast] send carries it as the [User-Agent] header. *)
Theorem user_agent_required_and_sent :
  NWSClient.__init__ None
  = Raise (AssertionError "The NWS API requires a User-Agent string!") /\
  NWSClient.__init__ (Some "")
  = Raise (AssertionError "The NWS API requires a User-Agent string!") /\
  (forall ua self,
     NWSClient.__init__ ua = Ok self ->
     ua = Some (NWSClient.user_agent self) /\
     NWSClient.user_agent self <> "") /\
  (forall env self coords w,
     calls_added (carries_user_agent (NWSClient.user_agent self)) w
       (snd (NWSClient.get_location_data env self coords w))) /\
  (forall env self coords cached w,
     calls_added (carries_user_agent (NWSClient.user_agent self)) w
       (snd (NWSClient.get_weekly_forecast env self coords cached w))).
Proof.
  split; [reflexivity|]. split; [reflexivity|]. split; [|split].
  - intros [s|] self H; [|discriminate H]. unfold NWSClient.__init__ in H.
    destruct (String.eqb_spec s "") as [E|E]; cbn [negb] in H;
      [discriminate H|].
    injection H as <-. split; [reflexivity|exact E].
  - intros env self coords w. apply get_location_data_calls.
  - intros env self coords cached w. apply get_weekly_forecast_calls.
Qed.

Lemma user_agent_required_and_sent_witness :
  NWSClient.user_agent sample_client <> "" /\
  calls_added (carries_user_agent "pynws-check") world0 (snd fetched).
Proof.
  destruct user_agent_required_and_sent as [_ [_ [Hinit [_ Hweekly]]]].
  split.
  - apply (Hinit (Some "pynws-check") sample_client). reflexivity.
  - apply (Hweekly weather_env sample_client white_house None world0).
Defined.

(** * Further properties *)

(** ** The heat index beyond its formula *)

(** [heat_index] on integer arguments, as one expression of the tests it
    makes. *)
Lemma heat_index_int_run (self : Forecast.t) (T RH : Z) (ft frh : float) :
  Forecast.temperature self = JInt T ->
  Forecast.relative_humidity self = JInt RH ->
  float_of_int T = Ok ft ->
  float_of_int RH = Ok frh ->
  Forecast.heat_index self
  = if num_ge (PFloat (base_estimate ft frh)) (PInt 80) then
      if ((80 <=? T) && ((T <=? 112) && (RH <? 13)))%Z%bool then
        (do adj <- low_humidity_adjustment T RH;
         Ok (PFloat (rothfusz ft frh - adj)))%py
      else if ((85 <? RH) && ((80 <=? T) && (T <=? 87)))%Z%bool then
        (do adj <- high_humidity_adjustment T RH;
         Ok (PFloat (rothfusz ft frh + adj)))%py
      else Ok (PFloat (rothfusz ft frh))
    else Ok (PFloat (base_estimate ft frh)).
Proof.
  intros Ht Hrh HT HRH. unfold Forecast.heat_index. rewrite Ht, Hrh.
  cbn [as_num].
  change (Ok (PInt T)) with (I T). change (Ok (PInt RH)) with (I RH).
  rewrite (base_estimate_int T RH ft frh HT HRH).
  rewrite (rothfusz_int T RH ft frh HT HRH).
  unfold F at 1. cbn [bind]. unfold cmpop at 1. unfold I at 1. cbn [bind].
  destruct (num_ge (PFloat (base_estimate ft frh)) (PInt 80)); [|reflexivity].
  unfold F at 1. cbn [bind]. rewrite low_condition, high_condition.
  cbn [bind].
  destruct ((80 <=? T)%Z && ((T <=? 112)%Z && (RH <? 13)%Z)) eqn:Hlow.
  - apply low_adjustment_eval.
    rewrite !andb_true_iff, !Z.leb_le in Hlow. lia.
  - destruct ((85 <? RH)%Z && ((80 <=? T)%Z && (T <=? 87)%Z)).
    + apply high_adjustment_eval.
    + reflexivity.
Qed.

Lemma percent_converts (RH : Z) :
  (0 <= RH <= 100)%Z -> exists frh, float_of_int RH = Ok frh.
Proof.
  intros H.
  assert (E : is_ok (float_of_int RH) = true).
  { apply (range_forallb (fun z => is_ok (float_of_int z)) 0 101).
    - vm_compute. reflexivity.
    - lia. }
  destruct (float_of_int RH) as [frh|e]; [|discriminate E].
  exists frh. reflexivity.
Qed.

(** X1: for an integer temperature that converts to a double and an integer
    relative humidity between 0 and 100, [heat_index] raises nothing (no
    overflow, no domain error of the square root, no division error): it
    returns a float. *)
Theorem heat_index_returns_a_float (self : Forecast.t) (T RH : Z)
    (ft : float) :
  Forecast.temperature self = JInt T ->
  Forecast.relative_humidity self = JInt RH ->
  float_of_int T = Ok ft ->
  (0 <= RH <= 100)%Z ->
  exists h, Forecast.heat_index self = Ok (PFloat h).
Proof.
  intros Ht Hrh HT HRH. destruct (percent_converts RH HRH) as [frh Hfrh].
  rewrite (heat_index_int_run self T RH ft frh Ht Hrh HT Hfrh).
  destruct (num_ge _ _); [|eexists; reflexivity].
  destruct ((80 <=? T)%Z && ((T <=? 112)%Z && (RH <? 13)%Z)) eqn:Hlow.
  - rewrite !andb_true_iff, !Z.leb_le, Z.ltb_lt in Hlow.
    destruct (low_adjustment_defined T RH) as [adj ->]; try lia.
    eexists. reflexivity.
  - destruct ((85 <? RH)%Z && ((80 <=? T)%Z && (T <=? 87)%Z)) eqn:Hhigh.
    + rewrite !andb_true_iff, !Z.leb_le, Z.ltb_lt in Hhigh.
      destruct (high_adjustment_defined T RH) as [adj ->]; try lia.
      eexists. reflexivity.
    + eexists. reflexivity.
Qed.

Lemma heat_index_returns_a_float_witness :
  exists h,
    Forecast.heat_index (sample_forecast (JInt 82) (JInt 90))
    = Ok (PFloat h).
Proof.
  apply (heat_index_returns_a_float (sample_forecast (JInt 82) (JInt 90))
           82 90 82); try reflexivity. lia.
Defined.

(** X2: the values of a forecast are stored unchecked, and [heat_index]
    raises [TypeError] when the temperature is not a number ([null], a
    string, a list, an object), and also when the temperature is a number
    that converts to a double and the relative humidity is not a number. *)
Theorem heat_index_needs_numbers (self : Forecast.t) :
  (as_num (Forecast.temperature self) = Raise TypeError ->
   Forecast.heat_index self = Raise TypeError) /\
  (forall t ft,
     as_num (Forecast.temperature self) = Ok t ->
     to_float t = Ok ft ->
     as_num (Forecast.relative_humidity self) = Raise TypeError ->
     Forecast.heat_index self = Raise TypeError).
Proof.
  split.
  - intros Ht. unfold Forecast.heat_index. rewrite Ht. reflexivity.
  - intros t ft Ht Hft Hrh. unfold Forecast.heat_index. rewrite Ht, Hrh.
    unfold F, binop. cbn [bind].
    destruct t as [z|f]; cbn [num_add num_sub num_mul to_float bind] in *.
    + rewrite Hft. reflexivity.
    + reflexivity.
Qed.

Lemma heat_index_needs_numbers_witness :
  Forecast.heat_index (sample_forecast JNull (JInt 50)) = Raise TypeError /\
  Forecast.heat_index (sample_forecast (JInt 70) JNull) = Raise TypeError.
Proof.
  split.
  - apply (proj1 (heat_index_needs_numbers
                    (sample_forecast JNull (JInt 50)))).
    reflexivity.
  - apply (proj2 (heat_index_needs_numbers
                    (sample_forecast (JInt 70) JNull)) (PInt 70) 70%float);
      reflexivity.
Defined.

(** ** The geocoding lookup beyond its two outcomes *)

Lemma unchanged_refl (w : World) : unchanged w w.
Proof. reflexivity. Qed.

Lemma unchanged_trans (w1 w2 w3 : World) :
  unchanged w1 w2 -> unchanged w2 w3 -> unchanged w1 w3.
Proof. unfold unchanged. congruence. Qed.

(** Steps that only compute leave the world as it is. *)
Ltac pure_steps :=
  repeat first
    [ apply post_lift; exact unchanged_refl
    | apply post_ret; exact unchanged_refl
    | apply post_raise; exact unchanged_refl
    | apply post_handler; [exact unchanged_refl|exact unchanged_trans]
    | apply post_bind; [exact unchanged_trans| |intros ?]
    | match goal with
      | |- post _ (if ?b then _ else _) => destruct b
      | |- post _ (match ?a with Completed _ => _ | Excepted _ _ => _ end) =>
          destruct a
      end ].

Lemma try_get_run (env : Env) (q : Request) (w : World) :
  try_get env q w
  = (Ok match network env (calls w) q with
        | Failed e => Excepted None e
        | Responded r =>
            match raise_for_status r with
            | Raise e => Excepted (Some r) e
            | Ok _ => Completed r
            end
        end, called q w).
Proof.
  unfold try_get, requests_get, called.
  destruct (network env (calls w) q) as [r|e]; [|reflexivity].
  destruct (raise_for_status r); reflexivity.
Qed.

Lemma geocoder_params_fold (address city state zip : string) :
  fold_left
    (fun params kv =>
       if negb (String.length (snd kv) =? 0)%nat then (params ++ [kv])%list
       else params)
    [("city", city); ("state", state); ("zip", zip)]
    [("format", "json"); ("benchmark", "2020"); ("street", address)]
  = geocoder_params address city state zip.
Proof.
  unfold geocoder_params.
  destruct city, state, zip; reflexivity.
Qed.

(** X3: whatever the outcome, [get_coords_from_address] calls
    [requests.get] exactly once, on the geocoder URL, without headers, with
    the parameters [format], [benchmark] and [street] followed by those of
    [city], [state] and [zip] that are not empty, in that order; it changes
    nothing else. *)
Theorem geocoder_sends_one_request (env : Env)
    (address city state zip : string) (w : World) :
  snd (get_coords_from_address env address city state zip w)
  = called (mkRequest (JString GEOCODER_FORMAT_URL)
              (geocoder_params address city state zip) []) w.
Proof.
  unfold get_coords_from_address. rewrite geocoder_params_fold.
  unfold bindM at 1. rewrite try_get_run.
  match goal with
  | |- snd (?k ?w1) = _ =>
      assert (H : post unchanged k); [|exact (H w1)]
  end.
  pure_steps.
Qed.

(** X4: on a successful response whose body decodes to an object without a
    [result] key, or with a false one ([null], an empty object), the lookup
    raises a [ValueError] whose message quotes the body received. *)
Theorem geocoder_unexpected_json (env : Env)
    (address city state zip : string) (w : World) (r : Response)
    (o : list (string * json)) :
  (forall q, network env (calls w) q = Responded r) ->
  (200 <= status_code r < 300)%Z ->
  json_loads env (content r) = Ok (JObject o) ->
  (forall v, assoc "result" o = Some v -> truthy v = false) ->
  fst (get_coords_from_address env address city state zip w)
  = Raise (ValueError (JString
      ("Census geocoder returned unexpected JSON: "
         ++ bytes_repr env (content r)))).
Proof.
  intros Hnet Hst Hjson Hres.
  unfold get_coords_from_address. run. rewrite Hnet.
  rewrite (raise_for_status_ok r) by lia. run. rewrite Hjson. run.
  unfold dict_get. destruct (assoc "result" o) as [v|].
  - rewrite (Hres v eq_refl). reflexivity.
  - reflexivity.
Qed.

Lemma geocoder_unexpected_json_witness :
  fst (get_coords_from_address
         (sample_env (always 200 "body:no-result") further_table)
         "1 Main Street" "" "" "" world0)
  = Raise (ValueError (JString
      "Census geocoder returned unexpected JSON: b'body:no-result'")).
Proof.
  refine (geocoder_unexpected_json
            (sample_env (always 200 "body:no-result") further_table)
            "1 Main Street" "" "" "" world0
            (mkResponse 200 "body:no-result") _
            (fun _ => eq_refl) _ eq_refl _).
  - cbn. lia.
  - intros v H. discriminate H.
Defined.

(** X5: on a successful response whose [result] is a non-empty object
    without an [addressMatches] key, the lookup raises [TypeError] (the
    length of [None] is taken), not the address-not-found error. *)
Theorem geocoder_matches_missing (env : Env)
    (address city state zip : string) (w : World) (r : Response)
    (o res : list (string * json)) :
  (forall q, network env (calls w) q = Responded r) ->
  (200 <= status_code r < 300)%Z ->
  json_loads env (content r) = Ok (JObject o) ->
  assoc "result" o = Some (JObject res) ->
  res <> [] ->
  assoc "addressMatches" res = None ->
  fst (get_coords_from_address env address city state zip w)
  = Raise TypeError.
Proof.
  intros Hnet Hst Hjson Hres Hne Hm.
  pose proof (getitem_some _ _ _ Hres) as Gres.
  pose proof (dict_get_some _ _ _ Hres) as Dres.
  unfold get_coords_from_address. run. rewrite Hnet.
  rewrite (raise_for_status_ok r) by lia. run. rewrite Hjson. run.
  rewrite Dres. destruct res as [|kv res]; [contradiction|].
  cbn [truthy negb]. rewrite Gres. run.
  unfold dict_get. rewrite Hm. reflexivity.
Qed.

Lemma geocoder_matches_missing_witness :
  fst (get_coords_from_address
         (sample_env (always 200 "body:no-matches-key") further_table)
         "1 Main Street" "" "" "" world0)
  = Raise TypeError.
Proof.
  refine (geocoder_matches_missing
            (sample_env (always 200 "body:no-matches-key") further_table)
            "1 Main Street" "" "" "" world0
            (mkResponse 200 "body:no-matches-key") _ _
            (fun _ => eq_refl) _ eq_refl eq_refl _ eq_refl).
  - cbn. lia.
  - discriminate.
Defined.

(** ** Failures of the transport and of the decoding *)

(** X6: when [requests.get] itself raises (no response is received), none of
    the three request sites passes that exception on: the [except] clause
    reads the response that was never bound, and the caller gets
    [UnboundLocalError]. *)
Theorem connection_failure_is_masked (env : Env) (e : PyError) :
  (forall address city state zip w,
     (forall q, network env (calls w) q = Failed e) ->
     fst (get_coords_from_address env address city state zip w)
     = Raise (UnboundLocalError "r")) /\
  (forall self coords u w,
     POINTS_API_URL (lat coords) (long coords) = Ok u ->
     (forall q, network env (calls w) q = Failed e) ->
     fst (NWSClient.get_location_data env self coords w)
     = Raise (UnboundLocalError "r")) /\
  (forall self coords cached w w0 loc w1,
     cache_miss env cached w w0 ->
     NWSClient.get_location_data env self coords w0 = (Ok loc, w1) ->
     (forall q, network env (calls w1) q = Failed e) ->
     fst (NWSClient.get_weekly_forecast env self coords cached w)
     = Raise (UnboundLocalError "r")).
Proof.
  split; [|split].
  - intros address city state zip w Hnet.
    unfold get_coords_from_address. run. rewrite Hnet. reflexivity.
  - intros self coords u w Hurl Hnet.
    unfold NWSClient.get_location_data. run. rewrite Hurl. run.
    rewrite Hnet. reflexivity.
  - intros self coords cached w w0 loc w1 Hmiss Hloc Hnet.
    unfold NWSClient.get_weekly_forecast.
    destruct cached as [c|]; cbn [cache_miss] in Hmiss.
    + run. rewrite Hmiss. cbn [negb]. run. rewrite Hloc. run.
      rewrite Hnet. reflexivity.
    + subst w0. run. rewrite Hloc. run. rewrite Hnet. reflexivity.
Qed.

Lemma connection_failure_is_masked_witness :
  fst (get_coords_from_address (sample_env unreachable sample_table)
         "1600 Pennsylvania Avenue" "Washington" "DC" "" world0)
  = Raise (UnboundLocalError "r") /\
  fst (NWSClient.get_location_data (sample_env unreachable sample_table)
         sample_client white_house world0)
  = Raise (UnboundLocalError "r").
Proof.
  destruct (connection_failure_is_masked
              (sample_env unreachable sample_table)
              (RequestException "ConnectionError")) as [Hgeo [Hloc _]].
  split.
  - apply Hgeo. intros q. reflexivity.
  - apply (Hloc sample_client white_house
             "https://api.weather.gov/points/38.8977,-77.0365" world0).
    + vm_compute. reflexivity.
    + intros q. reflexivity.
Defined.

(** X7: on a 4xx or 5xx response whose body [json.loads] cannot decode, each
    of the three request sites raises the error of the decoding: the
    [HTTPError] of the status is lost. *)
Theorem error_body_not_json (env : Env) (r : Response) (e : PyError) :
  (400 <= status_code r < 600)%Z ->
  json_loads env (content r) = Raise e ->
  (forall address city state zip w,
     (forall q, network env (calls w) q = Responded r) ->
     fst (get_coords_from_address env address city state zip w) = Raise e) /\
  (forall self coords u w,
     POINTS_API_URL (lat coords) (long coords) = Ok u ->
     (forall q, network env (calls w) q = Responded r) ->
     fst (NWSClient.get_location_data env self coords w) = Raise e) /\
  (forall self coords cached w w0 loc w1,
     cache_miss env cached w w0 ->
     NWSClient.get_location_data env self coords w0 = (Ok loc, w1) ->
     (forall q, network env (calls w1) q = Responded r) ->
     fst (NWSClient.get_weekly_forecast env self coords cached w) = Raise e).
Proof.
  intros Hst Hjson. pose proof (raise_for_status_error r Hst) as Hraise.
  split; [|split].
  - intros address city state zip w Hnet.
    unfold get_coords_from_address. run. rewrite Hnet, Hraise. run.
    rewrite Hjson. reflexivity.
  - intros self coords u w Hurl Hnet.
    unfold NWSClient.get_location_data. run. rewrite Hurl. run.
    rewrite Hnet, Hraise. run. rewrite Hjson. reflexivity.
  - intros self coords cached w w0 loc w1 Hmiss Hloc Hnet.
    unfold NWSClient.get_weekly_forecast.
    destruct cached as [c|]; cbn [cache_miss] in Hmiss.
    + run. rewrite Hmiss. cbn [negb]. run. rewrite Hloc. run.
      rewrite Hnet, Hraise. run. rewrite Hjson. reflexivity.
    + subst w0. run. rewrite Hloc. run.
      rewrite Hnet, Hraise. run. rewrite Hjson. reflexivity.
Qed.

Lemma error_body_not_json_witness :
  fst (get_coords_from_address
         (sample_env (always 502 "Bad Gateway") sample_table)
         "1600 Pennsylvania Avenue" "Washington" "DC" "" world0)
  = Raise JSONDecodeError.
Proof.
  refine (proj1 (error_body_not_json
                   (sample_env (always 502 "Bad Gateway") sample_table)
                   (mkResponse 502 "Bad Gateway") JSONDecodeError _ eq_refl)
                _ _ _ _ world0 (fun _ => eq_refl)).
  cbn. lia.
Defined.

(** ** Building the objects of the weather client *)

(** X8: [LocationData.__init__] reads seven keys under [properties]. When
    one is missing it raises [KeyError] for the first missing one, in the
    order the keys are read, without reading the clock; when all are there
    it stores their values unchecked, with the [max_age] given and the
    reading of the clock as creation time. *)
Theorem location_init_keys (env : Env) (points_json : json)
    (props : list (string * json)) (max_age : max_age_value) (w : World) :
  getitem points_json "properties" = Ok (JObject props) ->
  match first_missing props location_keys with
  | Some k =>
      LocationData.__init__ env points_json max_age w
      = (Raise (KeyError (JString k)), w)
  | None =>
      exists self,
        LocationData.__init__ env points_json max_age w
        = (Ok self, ticked w) /\
        assoc "gridX" props = Some (LocationData.x self) /\
        assoc "gridY" props = Some (LocationData.y self) /\
        assoc "cwa" props = Some (LocationData.cwa self) /\
        assoc "forecast" props
        = Some (LocationData.weekly_forecast_url self) /\
        assoc "forecastHourly" props
        = Some (LocationData.hourly_forecast_url self) /\
        assoc "forecastGridData" props
        = Some (LocationData.forecast_grid_data_url self) /\
        assoc "timeZone" props = Some (LocationData.timezone self) /\
        LocationData.max_age self = max_age /\
        LocationData.created self = mkDatetime (clock env (ticks w)) None
  end.
Proof.
  intros Hp. unfold LocationData.__init__, datetime_now. run.
  rewrite Hp. unfold getitem, location_keys. cbn [first_missing].
  destruct (assoc "gridX" props); [|reflexivity].
  destruct (assoc "gridY" props); [|reflexivity].
  destruct (assoc "cwa" props); [|reflexivity].
  destruct (assoc "forecast" props); [|reflexivity].
  destruct (assoc "forecastHourly" props); [|reflexivity].
  destruct (assoc "forecastGridData" props); [|reflexivity].
  destruct (assoc "timeZone" props); [|reflexivity].
  eexists. repeat split; reflexivity.
Qed.

Lemma location_init_keys_witness :
  exists self,
    LocationData.__init__ weather_env points_json (MaxAgeInt 0) world0
    = (Ok self, ticked world0) /\
    LocationData.weekly_forecast_url self = JString forecast_url.
Proof.
  pose proof (location_init_keys weather_env points_json _ (MaxAgeInt 0)
                world0 eq_refl) as H.
  cbn [first_missing location_keys assoc String.eqb Ascii.eqb Bool.eqb] in H.
  destruct H as [self [Hrun [_ [_ [_ [Hurl _]]]]]].
  exists self. split; [exact Hrun|]. now injection Hurl as <-.
Defined.

Lemma mapM_ok (A B : Type) (f : A -> result B) (l : list A) (bs : list B) :
  mapM f l = Ok bs -> Forall2 (fun a b => f a = Ok b) l bs.
Proof.
  revert bs. induction l as [|a l IH]; intros bs H; cbn [mapM bind] in H.
  - injection H as <-. constructor.
  - destruct (f a) as [b|e] eqn:Ha; [|discriminate H]. cbn [bind] in H.
    destruct (mapM f l) as [bs'|e]; [|discriminate H]. cbn [bind] in H.
    injection H as <-. constructor; [exact Ha|apply IH; reflexivity].
Qed.

Lemma mapM_all (A B : Type) (f : A -> result B) (l : list A) :
  (forall a, In a l -> exists b, f a = Ok b) -> exists bs, mapM f l = Ok bs.
Proof.
  induction l as [|a l IH]; intros H; cbn [mapM].
  - eexists. reflexivity.
  - destruct (H a (or_introl eq_refl)) as [b ->].
    destruct IH as [bs ->]; [intros a' Ha'; apply H; now right|].
    eexists. reflexivity.
Qed.

Lemma mapM_raise (A B : Type) (f : A -> result B) (l : list A)
    (e : PyError) :
  mapM f l = Raise e ->
  exists before a after,
    l = (before ++ a :: after)%list /\ f a = Raise e /\
    forall a', In a' before -> exists b, f a' = Ok b.
Proof.
  induction l as [|a l IH]; intros H; cbn [mapM] in H; [discriminate H|].
  destruct (f a) as [b|e'] eqn:Ha; cbn [bind] in H.
  - destruct (mapM f l) as [bs|e'']; cbn [bind] in H; [discriminate H|].
    injection H as ->.
    destruct (IH eq_refl) as [before [a0 [after [-> [Ha0 Hbefore]]]]].
    exists (a :: before), a0, after. split; [reflexivity|].
    split; [exact Ha0|]. intros a' [<-|Hin]; [now exists b|now apply Hbefore].
  - injection H as ->. exists [], a, l. split; [reflexivity|].
    split; [exact Ha|]. intros a' [].
Qed.

(** X9: for a response whose [properties.periods] is a list,
    [WeeklyForecast.__init__] is all or nothing. When it succeeds, iterating
    over the object yields exactly one forecast per period, in the order of
    the periods, each the [Forecast] of its period; it succeeds when every
    period builds; and when it fails, the error is the one of the first
    period that does not build. *)
Theorem weekly_init_one_forecast_per_period (env : Env)
    (forecast_json p : json) (periods : list json) (max_age : max_age_value)
    (w : World) :
  getitem forecast_json "properties" = Ok p ->
  getitem p "periods" = Ok (JArray periods) ->
  (forall self w',
     WeeklyForecast.__init__ env forecast_json max_age w = (Ok self, w') ->
     Forall2 (fun pj f => Forecast.__init__ env pj = Ok f) periods
       (WeeklyForecast.__iter__ self) /\
     List.length (WeeklyForecast.__iter__ self) = List.length periods) /\
  ((forall pj, In pj periods -> exists f, Forecast.__init__ env pj = Ok f) ->
   exists self w',
     WeeklyForecast.__init__ env forecast_json max_age w = (Ok self, w')) /\
  (forall e,
     fst (WeeklyForecast.__init__ env forecast_json max_age w) = Raise e ->
     exists before pj after,
       periods = (before ++ pj :: after)%list /\
       Forecast.__init__ env pj = Raise e /\
       forall pj', In pj' before ->
         exists f, Forecast.__init__ env pj' = Ok f).
Proof.
  intros Hp Hperiods.
  assert (Hrun : WeeklyForecast.__init__ env forecast_json max_age w
    = match mapM (Forecast.__init__ env) periods with
      | Ok fs =>
          (Ok (WeeklyForecast.mk (next_id w) fs max_age
                 (mkDatetime (clock env (ticks w)) None)),
           mkWorld (calls w) (S (ticks w)) (S (next_id w)))
      | Raise e => (Raise e, mkWorld (calls w) (ticks w) (S (next_id w)))
      end).
  { unfold WeeklyForecast.__init__, new_id, datetime_now. run.
    rewrite Hp, Hperiods. cbn [iter].
    destruct (mapM (Forecast.__init__ env) periods); reflexivity. }
  rewrite Hrun. clear Hrun. split; [|split].
  - intros self w' H.
    destruct (mapM (Forecast.__init__ env) periods) as [fs|e] eqn:Hm;
      [|discriminate H].
    injection H as <- _. unfold WeeklyForecast.__iter__.
    cbn [WeeklyForecast.forecasts]. apply mapM_ok in Hm.
    split; [exact Hm|]. symmetry. apply (Forall2_length Hm).
  - intros Hall. destruct (mapM_all _ _ _ _ Hall) as [fs ->].
    eexists. eexists. reflexivity.
  - intros e H.
    destruct (mapM (Forecast.__init__ env) periods) as [fs|e'] eqn:Hm;
      [discriminate H|].
    cbn [fst] in H. injection H as ->. apply (mapM_raise _ _ _ _ _ Hm).
Qed.

Lemma weekly_init_one_forecast_per_period_witness :
  exists self w',
    WeeklyForecast.__init__ weather_env weekly_json (MaxAgeInt 0) world0
    = (Ok self, w') /\
    List.length (WeeklyForecast.__iter__ self) = 1%nat.
Proof.
  destruct (weekly_init_one_forecast_per_period weather_env weekly_json _
              [period_json] (MaxAgeInt 0) world0 eq_refl eq_refl)
    as [Hok [Hall _]].
  destruct Hall as [self [w' Hrun]].
  - intros pj [<-|[]]. eexists. vm_compute. reflexivity.
  - exists self, w'. split; [exact Hrun|].
    apply (proj2 (Hok self w' Hrun)).
Defined.

Lemma list_getitem_last (A : Type) (a : A) (l : list A) :
  exists x, list_getitem (a :: l) (-1) = Ok x.
Proof.
  unfold list_getitem. cbn [Z.ltb Z.compare].
  set (n := Z.of_nat (List.length (a :: l))).
  assert (Hn : (1 <= n)%Z) by (unfold n; cbn [List.length]; lia).
  replace ((0 <=? -1 + n)%Z && (-1 + n <? n)%Z) with true
    by (symmetry; apply andb_true_iff; rewrite Z.leb_le, Z.ltb_lt; lia).
  destruct (nth_error (a :: l) (Z.to_nat (-1 + n))) as [x|] eqn:E.
  - exists x. reflexivity.
  - apply nth_error_None in E. unfold n in *. lia.
Qed.

(** X10: [WeeklyForecast.__str__] shows no date. Its [strftime] format,
    [dd/mm/yy], holds no directive, so for an object with at least one
    forecast the text is always [WeeklyForecast(dd/mm/yy - dd/mm/yy)],
    whatever the start and end times; for an object without forecasts it
    raises [IndexError]. *)
Theorem weekly_str_shows_no_date (render : datetime -> string -> string)
    (self : WeeklyForecast.t) :
  (WeeklyForecast.forecasts self <> [] ->
   WeeklyForecast.__str__ render self
   = Ok "WeeklyForecast(dd/mm/yy - dd/mm/yy)") /\
  (WeeklyForecast.forecasts self = [] ->
   WeeklyForecast.__str__ render self = Raise IndexError).
Proof.
  unfold WeeklyForecast.__str__. split.
  - intros Hne. destruct (WeeklyForecast.forecasts self) as [|f fs];
      [contradiction|].
    destruct (list_getitem_last _ f fs) as [x ->]. reflexivity.
  - intros ->. reflexivity.
Qed.

Lemma weekly_str_shows_no_date_witness :
  WeeklyForecast.__str__ sample_render
    (WeeklyForecast.mk 0 [sample_forecast (JInt 70) (JInt 50)] (MaxAgeInt 0)
       (mkDatetime 0 None))
  = Ok "WeeklyForecast(dd/mm/yy - dd/mm/yy)" /\
  WeeklyForecast.__str__ sample_render hourly_cached = Raise IndexError.
Proof.
  split.
  - apply (proj1 (weekly_str_shows_no_date sample_render _)). discriminate.
  - apply (proj2 (weekly_str_shows_no_date sample_render hourly_cached)).
    reflexivity.
Defined.

(** ** A fetch, step by step *)

Lemma location_init_inv (env : Env) (points_json : json)
    (max_age : max_age_value) (w w' : World) (loc : LocationData.t) :
  LocationData.__init__ env points_json max_age w = (Ok loc, w') ->
  w' = ticked w /\
  (do p <- getitem points_json "properties"; getitem p "forecast")%py
  = Ok (LocationData.weekly_forecast_url loc).
Proof.
  intros H. unfold LocationData.__init__, datetime_now in H. run_in H.
  destruct (getitem points_json "properties") as [p|e]; [|discriminate H].
  break_match H. injection H as <- <-. split; [reflexivity|].
  cbn [bind LocationData.weekly_forecast_url]. assumption.
Qed.

Lemma get_location_data_inv (env : Env) (self : NWSClient.t)
    (coords : Coordinates) (w w1 : World) (loc : LocationData.t) :
  NWSClient.get_location_data env self coords w = (Ok loc, w1) ->
  exists u r j,
    POINTS_API_URL (lat coords) (long coords) = Ok u /\
    network env (calls w) (weather_request self (JString u)) = Responded r /\
    json_loads env (content r) = Ok j /\
    (do p <- getitem j "properties"; getitem p "forecast")%py
    = Ok (LocationData.weekly_forecast_url loc) /\
    w1 = ticked (called (weather_request self (JString u)) w).
Proof.
  intros H. unfold NWSClient.get_location_data in H. run_in H.
  destruct (POINTS_API_URL (lat coords) (long coords)) as [u|e];
    [|discriminate H].
  fold (weather_request self (JString u)) in H.
  destruct (network env (calls w) (weather_request self (JString u)))
    as [r|e] eqn:Hnet; [|discriminate H].
  destruct (raise_for_status r).
  - destruct (json_loads env (content r)) as [j|e] eqn:Hjson;
      [|discriminate H].
    apply location_init_inv in H. destruct H as [-> Hurl].
    exists u, r, j. repeat split; try reflexivity; assumption.
  - break_match H; discriminate H.
Qed.

Lemma fetch_inv (env : Env) (self : NWSClient.t) (coords : Coordinates)
    (cached : option WeeklyForecast.t) (w w0 w' : World)
    (wf : WeeklyForecast.t) :
  cache_miss env cached w w0 ->
  NWSClient.get_weekly_forecast env self coords cached w = (Ok wf, w') ->
  exists loc w1 r j,
    NWSClient.get_location_data env self coords w0 = (Ok loc, w1) /\
    network env (calls w1)
      (weather_request self (LocationData.weekly_forecast_url loc))
    = Responded r /\
    json_loads env (content r) = Ok j /\
    WeeklyForecast.__init__ env j (MaxAgeInt 0)
      (called (weather_request self (LocationData.weekly_forecast_url loc))
         w1)
    = (Ok wf, w').
Proof.
  intros Hmiss H. unfold NWSClient.get_weekly_forecast in H.
  assert (Hfetch :
    match NWSClient.get_location_data env self coords w0 with
    | (Ok loc, w1) =>
        match network env (calls w1)
                (weather_request self (LocationData.weekly_forecast_url loc))
        with
        | Responded r =>
            match raise_for_status r with
            | Ok _ =>
                match json_loads env (content r) with
                | Ok j =>
                    WeeklyForecast.__init__ env j (MaxAgeInt 0)
                      (called
                         (weather_request self
                            (LocationData.weekly_forecast_url loc)) w1)
                    = (Ok wf, w')
                | Raise _ => False
                end
            | Raise _ => False
            end
        | Failed _ => False
        end
    | (Raise _, _) => False
    end).
  { destruct cached as [c|]; cbn [cache_miss] in Hmiss.
    - unfold bindM at 1 in H. rewrite Hmiss in H. cbn [negb] in H.
      run_in H.
      destruct (NWSClient.get_location_data env self coords w0)
        as [[loc|e] w1]; [|discriminate H].
      unfold weather_request.
      destruct (network env (calls w1) _) as [r|e]; [|discriminate H].
      destruct (raise_for_status r); [|break_match H; discriminate H].
      destruct (json_loads env (content r)); [exact H|discriminate H].
    - subst w0. run_in H.
      destruct (NWSClient.get_location_data env self coords w)
        as [[loc|e] w1]; [|discriminate H].
      unfold weather_request.
      destruct (network env (calls w1) _) as [r|e]; [|discriminate H].
      destruct (raise_for_status r); [|break_match H; discriminate H].
      destruct (json_loads env (content r)); [exact H|discriminate H]. }
  clear H.
  destruct (NWSClient.get_location_data env self coords w0)
    as [[loc|e] w1]; [|contradiction].
  destruct (network env (calls w1) _) as [r|e] eqn:Hnet; [|contradiction].
  destruct (raise_for_status r); [|contradiction].
  destruct (json_loads env (content r)) as [j|e] eqn:Hjson; [|contradiction].
  exists loc, w1, r, j. repeat split; try reflexivity; assumption.
Qed.

Lemma cache_miss_world (env : Env) (cached : option WeeklyForecast.t)
    (w w0 : World) :
  cache_miss env cached w w0 ->
  calls w0 = calls w /\ next_id w0 = next_id w.
Proof.
  destruct cached as [c|]; cbn [cache_miss]; intros H.
  - rewrite weekly_is_expired_run in H. injection H as _ <-.
    split; reflexivity.
  - subst w0. split; reflexivity.
Qed.

(** X11: a call of [get_weekly_forecast] that returns a forecast after a
    cache miss has sent exactly two requests: first the points URL built from
    the coordinates, then the URL that the points response gives under
    [properties.forecast], taken as it is. *)
Theorem fetch_sends_two_requests (env : Env) (self : NWSClient.t)
    (coords : Coordinates) (cached : option WeeklyForecast.t)
    (w w0 w' : World) (wf : WeeklyForecast.t) :
  cache_miss env cached w w0 ->
  NWSClient.get_weekly_forecast env self coords cached w = (Ok wf, w') ->
  exists u r j weekly_url,
    POINTS_API_URL (lat coords) (long coords) = Ok u /\
    network env (calls w) (weather_request self (JString u)) = Responded r /\
    json_loads env (content r) = Ok j /\
    (do p <- getitem j "properties"; getitem p "forecast")%py
    = Ok weekly_url /\
    calls w'
    = (calls w ++ [weather_request self (JString u);
                   weather_request self weekly_url])%list.
Proof.
  intros Hmiss H.
  destruct (cache_miss_world env cached w w0 Hmiss) as [Hcalls _].
  destruct (fetch_inv env self coords cached w w0 w' wf Hmiss H)
    as [loc [w1 [r2 [j2 [Hloc [_ [_ Hinit]]]]]]].
  apply get_location_data_inv in Hloc.
  destruct Hloc as [u [r [j [Hu [Hnet [Hjson [Hurl ->]]]]]]].
  apply weekly_init_ok in Hinit. destruct Hinit as [_ [_ [_ ->]]].
  exists u, r, j, (LocationData.weekly_forecast_url loc).
  rewrite Hcalls in Hnet. repeat split; try assumption.
  cbn [calls called ticked]. rewrite Hcalls, <- app_assoc. reflexivity.
Qed.

Lemma fetch_sends_two_requests_witness :
  exists wf w',
    fetched = (Ok wf, w') /\
    calls w'
    = [weather_request sample_client
         (JString "https://api.weather.gov/points/38.8977,-77.0365");
       weather_request sample_client (JString forecast_url)].
Proof.
  assert (E : exists wf w', fetched = (Ok wf, w')).
  { eexists. eexists. vm_compute. reflexivity. }
  destruct E as [wf [w' E]]. exists wf, w'. split; [exact E|].
  destruct (fetch_sends_two_requests weather_env sample_client white_house
              None world0 world0 w' wf eq_refl E)
    as [u [r [j [url2 [Hu [Hnet [Hjson [Hurl ->]]]]]]]].
  assert (Eu : u = "https://api.weather.gov/points/38.8977,-77.0365").
  { assert (Hu' : POINTS_API_URL (lat white_house) (long white_house)
                  = Ok "https://api.weather.gov/points/38.8977,-77.0365")
      by (vm_compute; reflexivity).
    rewrite Hu' in Hu. now injection Hu. }
  subst u. cbn in Hnet. injection Hnet as <-.
  cbn in Hjson. injection Hjson as <-.
  cbn in Hurl. injection Hurl as <-. reflexivity.
Defined.

(** X12: a forecast that [get_weekly_forecast] has fetched cannot serve as
    its cache: passed back as [cached_result], to any client and for any
    coordinates, it makes the call raise [TypeError] (its [max_age] is the
    int 0, which the expiry check cannot compare), after one reading of the
    clock and without any request. *)
Theorem fetched_forecast_breaks_the_cache (env : Env) (self : NWSClient.t)
    (coords : Coordinates) (cached : option WeeklyForecast.t)
    (w w0 w' : World) (wf : WeeklyForecast.t) :
  cache_miss env cached w w0 ->
  NWSClient.get_weekly_forecast env self coords cached w = (Ok wf, w') ->
  forall self2 coords2 w2,
    NWSClient.get_weekly_forecast env self2 coords2 (Some wf) w2
    = (Raise TypeError, ticked w2).
Proof.
  intros Hmiss H self2 coords2 w2.
  destruct (fetch_inv env self coords cached w w0 w' wf Hmiss H)
    as [loc [w1 [r [j [_ [_ [_ Hinit]]]]]]].
  apply weekly_init_ok in Hinit. destruct Hinit as [Hage [Hcreated _]].
  unfold NWSClient.get_weekly_forecast. unfold bindM at 1.
  rewrite weekly_is_expired_run, Hage, Hcreated. reflexivity.
Qed.

Lemma fetched_forecast_breaks_the_cache_witness :
  exists wf w',
    fetched = (Ok wf, w') /\
    NWSClient.get_weekly_forecast weather_env sample_client white_house
      (Some wf) w'
    = (Raise TypeError, ticked w').
Proof.
  assert (E : exists wf w', fetched = (Ok wf, w')).
  { eexists. eexists. vm_compute. reflexivity. }
  destruct E as [wf [w' E]]. exists wf, w'. split; [exact E|].
  apply (fetched_forecast_breaks_the_cache weather_env sample_client
           white_house None world0 world0 w' wf eq_refl E).
Defined.

(** ** Expiry with a [timedelta] *)

Lemma location_init_ok (env : Env) (points_json : json)
    (max_age : max_age_value) (w w' : World) (loc : LocationData.t) :
  LocationData.__init__ env points_json max_age w = (Ok loc, w') ->
  LocationData.max_age loc = max_age /\
  LocationData.created loc = mkDatetime (clock env (ticks w)) None.
Proof.
  intros H. unfold LocationData.__init__, datetime_now in H. run_in H.
  break_match H. injection H as <- _. split; reflexivity.
Qed.

(** X13: an object built with a [timedelta] as [max_age] expires as meant:
    for a [WeeklyForecast] and for a [LocationData] alike, [is_expired]
    raises nothing and returns true exactly when the clock read at the check
    exceeds the clock read at construction by more than [max_age]; it reads
    the clock once and does nothing else. *)
Theorem built_objects_expire_by_timedelta (env : Env) (d : timedelta) :
  (forall forecast_json w wf w' w2,
     WeeklyForecast.__init__ env forecast_json (MaxAgeTimedelta d) w
     = (Ok wf, w') ->
     WeeklyForecast.is_expired env wf w2
     = (Ok (d <? clock env (ticks w2) - clock env (ticks w))%Z, ticked w2)) /\
  (forall points_json w loc w' w2,
     LocationData.__init__ env points_json (MaxAgeTimedelta d) w
     = (Ok loc, w') ->
     LocationData.is_expired env loc w2
     = (Ok (d <? clock env (ticks w2) - clock env (ticks w))%Z, ticked w2)).
Proof.
  split.
  - intros j w wf w' w2 H. apply weekly_init_ok in H.
    destruct H as [Hage [Hcreated _]].
    rewrite weekly_is_expired_run, Hage, Hcreated. reflexivity.
  - intros j w loc w' w2 H. apply location_init_ok in H.
    destruct H as [Hage Hcreated].
    rewrite location_is_expired_run, Hage, Hcreated. reflexivity.
Qed.

Lemma built_objects_expire_by_timedelta_witness :
  exists wf w',
    WeeklyForecast.__init__ weather_env weekly_json
      (MaxAgeTimedelta 2000000%Z) world0 = (Ok wf, w') /\
    fst (WeeklyForecast.is_expired weather_env wf (mkWorld [] 2 1))
    = Ok false /\
    fst (WeeklyForecast.is_expired weather_env wf (mkWorld [] 3 1))
    = Ok true.
Proof.
  assert (E : exists wf w',
            WeeklyForecast.__init__ weather_env weekly_json
              (MaxAgeTimedelta 2000000%Z) world0 = (Ok wf, w')).
  { eexists. eexists. vm_compute. reflexivity. }
  destruct E as [wf [w' E]]. exists wf, w'. split; [exact E|].
  destruct (built_objects_expire_by_timedelta weather_env 2000000%Z)
    as [Hweekly _].
  split.
  - rewrite (Hweekly weekly_json world0 wf w' (mkWorld [] 2 1) E).
    reflexivity.
  - rewrite (Hweekly weekly_json world0 wf w' (mkWorld [] 3 1) E).
    reflexivity.
Defined.

(** ** From a period to its heat index *)

Lemma forecast_init_inv (env : Env) (forecast_json : json)
    (self : Forecast.t) :
  Forecast.__init__ env forecast_json = Ok self ->
  getitem forecast_json "temperature" = Ok (Forecast.temperature self) /\
  (do hum <- getitem forecast_json "relativeHumidity";
   getitem hum "value")%py
  = Ok (Forecast.relative_humidity self).
Proof.
  intros H. unfold Forecast.__init__ in H.
  cbv beta iota zeta delta [bind] in H.
  destruct (getitem forecast_json "name"); [|discriminate H].
  destruct (getitem forecast_json "startTime"); [|discriminate H].
  destruct (Forecast.parse_iso env _); [|discriminate H].
  destruct (getitem forecast_json "endTime"); [|discriminate H].
  destruct (Forecast.parse_iso env _); [|discriminate H].
  destruct (getitem forecast_json "isDaytime"); [|discriminate H].
  destruct (getitem forecast_json "temperature") as [t|]; [|discriminate H].
  destruct (getitem forecast_json "temperatureUnit"); [|discriminate H].
  destruct (getitem forecast_json "probabilityOfPrecipitation");
    [|discriminate H].
  destruct (getitem _ "value"); [|discriminate H].
  destruct (getitem forecast_json "relativeHumidity") as [hum|];
    [|discriminate H].
  destruct (getitem hum "value") as [rh|] eqn:Hrh; [|discriminate H].
  break_match H. injection H as <-. split; [reflexivity|].
  cbn [bind Forecast.relative_humidity]. exact Hrh.
Qed.

(** X14: the heat index of a period depends on two of its values only: two
    periods that build, with the same [temperature] and the same
    [relativeHumidity.value], have the same heat index (the same number or
    the same error), whatever their other fields. *)
Theorem heat_index_depends_on_two_values (env : Env) (p1 p2 : json)
    (f1 f2 : Forecast.t) :
  Forecast.__init__ env p1 = Ok f1 ->
  Forecast.__init__ env p2 = Ok f2 ->
  getitem p1 "temperature" = getitem p2 "temperature" ->
  (do hum <- getitem p1 "relativeHumidity"; getitem hum "value")%py
  = (do hum <- getitem p2 "relativeHumidity"; getitem hum "value")%py ->
  Forecast.heat_index f1 = Forecast.heat_index f2.
Proof.
  intros H1 H2 Ht Hrh.
  apply forecast_init_inv in H1. destruct H1 as [Ht1 Hrh1].
  apply forecast_init_inv in H2. destruct H2 as [Ht2 Hrh2].
  rewrite Ht1, Ht2 in Ht. injection Ht as Et.
  rewrite Hrh1, Hrh2 in Hrh. injection Hrh as Erh.
  unfold Forecast.heat_index. rewrite Et, Erh. reflexivity.
Qed.

Lemma heat_index_depends_on_two_values_witness :
  exists f1 f2,
    Forecast.__init__ weather_env period_json = Ok f1 /\
    Forecast.__init__ weather_env night_period_json = Ok f2 /\
    Forecast.name f1 <> Forecast.name f2 /\
    Forecast.heat_index f1 = Forecast.heat_index f2.
Proof.
  assert (E1 : exists f1, Forecast.__init__ weather_env period_json = Ok f1).
  { eexists. vm_compute. reflexivity. }
  assert (E2 : exists f2,
            Forecast.__init__ weather_env night_period_json = Ok f2).
  { eexists. vm_compute. reflexivity. }
  destruct E1 as [f1 E1]. destruct E2 as [f2 E2]. exists f1, f2.
  split; [exact E1|]. split; [exact E2|]. split.
  - assert (N1 : Forecast.name f1 = JString "Today").
    { vm_compute in E1. now injection E1 as <-. }
    assert (N2 : Forecast.name f2 = JString "Tonight").
    { vm_compute in E2. now injection E2 as <-. }
    rewrite N1, N2. discriminate.
  - apply (heat_index_depends_on_two_values weather_env period_json
             night_period_json f1 f2 E1 E2); reflexivity.
Defined.
